(** * photo-organizer: date resolution and idempotent placement

    A shallow embedding of [src/photo_organizer.py] (class [PhotoOrganizer]:
    [get_file_date], [organize_file], [process_directory]; class
    [MediaFileHandler]; the configuration checks of [main]) together with
    the part of the Python runtime it calls: [os.path] string functions, a
    POSIX file tree with directories, regular files and symbolic links,
    [os.makedirs], [shutil.copy2], [os.walk], and the logging calls.
    Exceptions and the mutable file tree are threaded through a small
    state-and-exception monad.

    A Python [str] is modelled by the string of its UTF-8 bytes: the
    separators [/] and [.] are single bytes that occur in no other
    character, so the functions of [os.path] act on the bytes as they act
    on the characters.  [str.lower], which follows the Unicode tables, is a
    function of the platform. *)

From stdpp Require Import gmap strings list fin_maps.
From Stdlib Require Import ZArith Ascii.
From Stdlib.Strings Require Import Byte.

Open Scope string_scope.
Open Scope list_scope.
Open Scope Z_scope.

(** ** Python strings *)

Module PyStr.

(** Lower-casing of the letters [A] to [Z]. *)
Definition lower_ascii (c : ascii) : ascii :=
  let n := nat_of_ascii c in
  if (65 <=? n)%nat && (n <=? 90)%nat then ascii_of_nat (n + 32) else c.

(** [str.lower] on a string of ASCII characters. *)
Fixpoint ascii_lower (s : string) : string :=
  match s with
  | EmptyString => EmptyString
  | String c s' => String (lower_ascii c) (ascii_lower s')
  end.

(** [str.isascii]. *)
Fixpoint isascii (s : string) : bool :=
  match s with
  | EmptyString => true
  | String c s' => (nat_of_ascii c <? 128)%nat && isascii s'
  end.

(** [s.split(sep)] for a one-character separator: never the empty list. *)
Fixpoint split_on (sep : ascii) (s : string) : list string :=
  match s with
  | EmptyString => [EmptyString]
  | String c s' =>
      if Ascii.eqb c sep then EmptyString :: split_on sep s'
      else match split_on sep s' with
           | x :: xs => String c x :: xs
           | [] => [String c EmptyString]
           end
  end.

Definition startswith (s : string) (c : ascii) : bool :=
  match s with
  | String c' _ => Ascii.eqb c' c
  | EmptyString => false
  end.

Fixpoint endswith (s : string) (c : ascii) : bool :=
  match s with
  | EmptyString => false
  | String c' EmptyString => Ascii.eqb c' c
  | String _ s' => endswith s' c
  end.

Definition is_empty (s : string) : bool :=
  match s with EmptyString => true | _ => false end.

(** The slice [s[:n]]. *)
Fixpoint take (n : nat) (s : string) : string :=
  match n, s with
  | S n', String c s' => String c (take n' s')
  | _, _ => EmptyString
  end.

(** Membership test [x in l] on a list of strings. *)
Definition in_list (x : string) (l : list string) : bool :=
  existsb (String.eqb x) l.

(** [str(n)] for an integer. *)
Definition digit (d : Z) : ascii := ascii_of_nat (48 + Z.to_nat d).

Fixpoint digits_pos (fuel : nat) (n : Z) (acc : string) : string :=
  match fuel with
  | O => acc
  | S fuel' =>
      let acc' := String (digit (n mod 10)) acc in
      if n / 10 =? 0 then acc' else digits_pos fuel' (n / 10) acc'
  end.

Definition str_of_Z (n : Z) : string :=
  if n <? 0 then String "-" (digits_pos (S (Z.to_nat (Z.log2 (- n)))) (- n) EmptyString)
  else digits_pos (S (Z.to_nat (Z.log2 n))) n EmptyString.

(** Zero padding on the left up to [width] characters. *)
Fixpoint zeros (n : nat) : string :=
  match n with O => EmptyString | S n' => String "0" (zeros n') end.

Definition zfill (width : nat) (s : string) : string :=
  zeros (width - String.length s) +:+ s.

End PyStr.

(** ** [os.path] (posixpath) on strings *)

Module os_path.
Import PyStr.

Definition sep : ascii := "/"%char.
Definition extsep : ascii := "."%char.

(** [os.path.basename(p)]: what follows the last slash. *)
Definition basename (p : string) : string :=
  List.last (split_on sep p) EmptyString.

(** The extension of a basename, as [genericpath._splitext] finds it: the
    part from the last dot on, provided some character before that dot is
    not a dot (leading dots do not start an extension). *)
Definition ext_of_basename (b : string) : string :=
  match rev (split_on extsep b) with
  | suffix :: (_ :: _) as before =>
      if forallb is_empty before then EmptyString
      else String extsep suffix
  | _ => EmptyString
  end.

(** [os.path.splitext(p)] returns [(root, ext)] with [root + ext == p]. *)
Definition splitext (p : string) : string * string :=
  let ext := ext_of_basename (basename p) in
  (take (String.length p - String.length ext) p, ext).

(** [os.path.join(a, *p)]. *)
Definition join2 (path b : string) : string :=
  if startswith b sep then b
  else if is_empty path || endswith path sep then path +:+ b
  else path +:+ String sep b.

Definition join (a : string) (p : list string) : string :=
  fold_left join2 p a.

End os_path.

(** ** Python values, exceptions and [datetime] *)

Inductive exn : Type :=
| FileNotFoundError
| NotADirectoryError
| IsADirectoryError
| FileExistsError
| PermissionError
| SameFileError
| OSError (errno : Z)
| ValueError
| OverflowError
| TypeError
| KeyError
| LibraryError (name : string).

(** [errno.ELOOP]: too many levels of symbolic links. *)
Definition ELOOP : Z := 40.

Inductive result (A : Type) : Type :=
| Ok (a : A)
| Raise (e : exn).
Arguments Ok {A} a.
Arguments Raise {A} e.

(** A tag value read from a container: a [str], or an object of another
    type (bytes, tuple, number). *)
Inductive pyval : Type :=
| PyStr (s : string)
| PyOther.

Record datetime : Type := mk_datetime {
  year : Z; month : Z; day : Z;
  hour : Z; minute : Z; second : Z; microsecond : Z
}.

(** [d.strftime(fmt)] for the directives [%Y %m %d %H %M %S]; any other
    character is copied.  The C library decides how [%Y] prints a year
    below 1000: glibc prints it as it is ([999]), others pad it with zeros
    to four digits ([0999]); [pad_year] is that choice. *)
Fixpoint strftime_with (pad_year : bool) (d : datetime) (fmt : string)
    : string :=
  match fmt with
  | EmptyString => EmptyString
  | String "%" (String c rest) =>
      (if Ascii.eqb c "Y" then
         if pad_year then PyStr.zfill 4 (PyStr.str_of_Z (year d))
         else PyStr.str_of_Z (year d)
       else if Ascii.eqb c "m" then PyStr.zfill 2 (PyStr.str_of_Z (month d))
       else if Ascii.eqb c "d" then PyStr.zfill 2 (PyStr.str_of_Z (day d))
       else if Ascii.eqb c "H" then PyStr.zfill 2 (PyStr.str_of_Z (hour d))
       else if Ascii.eqb c "M" then PyStr.zfill 2 (PyStr.str_of_Z (minute d))
       else if Ascii.eqb c "S" then PyStr.zfill 2 (PyStr.str_of_Z (second d))
       else String "%" (String c EmptyString))
      +:+ strftime_with pad_year d rest
  | String c rest => String c (strftime_with pad_year d rest)
  end.

(** ** The file tree *)

(** What a regular file holds: its bytes, its modification time, and
    whether the process may open it for reading. *)
Record filedata : Type := mk_file {
  content : list byte;
  mtime : Z;
  readable : bool
}.

(** A node is a regular file, a directory, or a symbolic link.  The tree
    is a finite map from absolute, resolved paths (lists of names from the
    root, [[]] being the root) to nodes.  A symbolic link is kept with the
    place its target text names; nothing need exist there (a dangling
    link). *)
Inductive node : Type :=
| File (d : filedata)
| Dir
| Link (target : list string).

Abbreviation filetree := (gmap (list string) node).

#[global] Instance byte_eq_dec : EqDecision byte := Byte.byte_eq_dec.

#[global] Instance filedata_eq_dec : EqDecision filedata.
Proof. solve_decision. Defined.

#[global] Instance node_eq_dec : EqDecision node.
Proof. solve_decision. Defined.

(** What [os.stat] reports of the node a path leads to, links followed. *)
Inductive stat_result : Type :=
| StFile (d : filedata)
| StDir.

Definition node_of (s : stat_result) : node :=
  match s with StFile d => File d | StDir => Dir end.

Module FS.
Import PyStr.

Definition is_dot_like (c : string) : bool :=
  String.eqb c "" || String.eqb c ".".

(** One step of POSIX path resolution from directory [cur]. *)
Definition step (cur : list string) (c : string) : list string :=
  if is_dot_like c then cur
  else if String.eqb c ".." then removelast cur
  else cur ++ [c].

(** The number of symbolic links one resolution may follow (Linux). *)
Definition MAXSYMLINKS : nat := 40.

(** Following the symbolic links at [k], with [budget] links left to
    follow: the place reached holds no link. *)
Fixpoint follow (fs : filetree) (budget : nat) (k : list string)
    {struct budget} : result (list string * nat) :=
  match budget with
  | O =>
      match fs !! k with
      | Some (Link _) => Raise (OSError ELOOP)
      | _ => Ok (k, O)
      end
  | S budget' =>
      match fs !! k with
      | Some (Link target) => follow fs budget' target
      | _ => Ok (k, budget)
      end
  end.

(** Resolution of the components [cs] from [cur], following links: every
    directory that is traversed must exist and be a directory; the node
    the path ends at need not exist. *)
Fixpoint resolve_from (fs : filetree) (budget : nat)
    (cur : list string) (cs : list string) : result (list string * nat) :=
  match cs with
  | [] => Ok (cur, budget)
  | c :: cs' =>
      match fs !! cur with
      | Some Dir =>
          match follow fs budget (step cur c) with
          | Ok (k, budget') => resolve_from fs budget' k cs'
          | Raise e => Raise e
          end
      | Some _ => Raise NotADirectoryError
      | None => Raise FileNotFoundError
      end
  end.

Definition start_of (cwd : list string) (p : string) : list string :=
  if startswith p os_path.sep then [] else cwd.

Definition resolve (cwd : list string) (fs : filetree) (p : string)
    : result (list string) :=
  if is_empty p then Raise FileNotFoundError
  else match resolve_from fs MAXSYMLINKS (start_of cwd p)
               (split_on os_path.sep p) with
       | Ok (k, _) => Ok k
       | Raise e => Raise e
       end.

(** [os.stat(p)]: the node at [p], links followed, with its place. *)
Definition stat (cwd : list string) (fs : filetree) (p : string)
    : result (list string * stat_result) :=
  match resolve cwd fs p with
  | Ok k => match fs !! k with
            | Some (File d) => Ok (k, StFile d)
            | Some Dir => Ok (k, StDir)
            | Some (Link _) => Raise (OSError ELOOP)
            | None => Raise FileNotFoundError
            end
  | Raise e => Raise e
  end.

(** [os.lstat(p)]: as [stat], but a link at the last component is
    reported, not followed. *)
Definition lstat (cwd : list string) (fs : filetree) (p : string)
    : result (list string * node) :=
  if is_empty p then Raise FileNotFoundError
  else
    let cs := split_on os_path.sep p in
    match resolve_from fs MAXSYMLINKS (start_of cwd p) (removelast cs) with
    | Raise e => Raise e
    | Ok (k, _) =>
        match fs !! k with
        | Some Dir =>
            let k' := step k (List.last cs EmptyString) in
            match fs !! k' with
            | Some n => Ok (k', n)
            | None => Raise FileNotFoundError
            end
        | Some _ => Raise NotADirectoryError
        | None => Raise FileNotFoundError
        end
    end.

Definition exists_ (cwd : list string) (fs : filetree) (p : string) : bool :=
  match stat cwd fs p with Ok _ => true | Raise _ => false end.

Definition isdir (cwd : list string) (fs : filetree) (p : string) : bool :=
  match stat cwd fs p with Ok (_, StDir) => true | _ => false end.

Definition islink (cwd : list string) (fs : filetree) (p : string) : bool :=
  match lstat cwd fs p with Ok (_, Link _) => true | _ => false end.

Definition is_nil {A} (l : list A) : bool :=
  match l with [] => true | _ => false end.

(** The effect of [os.makedirs(name, exist_ok=True)]: walking the
    components of [name], every missing directory is created; a regular
    file met on the way, or at the end, raises, and so does a link that
    leads nowhere ([mkdir] does not create through a link). *)
Fixpoint makedirs_from (fs : filetree) (budget : nat)
    (cur : list string) (cs : list string) : result unit * filetree :=
  match cs with
  | [] =>
      match fs !! cur with
      | Some Dir => (Ok tt, fs)
      | Some _ => (Raise FileExistsError, fs)
      | None => (Raise FileNotFoundError, fs)
      end
  | c :: cs' =>
      match fs !! cur with
      | Some Dir =>
          let k := step cur c in
          match fs !! k with
          | None => makedirs_from (<[k := Dir]> fs) budget k cs'
          | Some (Link _) =>
              match follow fs budget k with
              | Raise e => (Raise e, fs)
              | Ok (k', budget') =>
                  match fs !! k' with
                  | None =>
                      (Raise (if is_nil cs' then FileExistsError
                              else FileNotFoundError), fs)
                  | Some _ => makedirs_from fs budget' k' cs'
                  end
              end
          | Some _ => makedirs_from fs budget k cs'
          end
      | Some _ => (Raise NotADirectoryError, fs)
      | None => (Raise FileNotFoundError, fs)
      end
  end.

Definition makedirs (cwd : list string) (fs : filetree) (name : string)
    : result unit * filetree :=
  if is_empty name then (Raise FileNotFoundError, fs)
  else makedirs_from fs MAXSYMLINKS (start_of cwd name)
         (split_on os_path.sep name).

(** [shutil.copy2(src, dst)]: [dst] is redirected into a directory, the
    same file is refused, the source is opened for reading (it must be a
    regular file the process may read), the destination is opened for
    writing, links followed (it is created in an existing directory, or
    truncated), and receives the bytes, the modification time and the
    permissions of the source. *)
Definition copy2 (cwd : list string) (fs : filetree) (src dst : string)
    : result unit * filetree :=
  let dst := if isdir cwd fs dst
             then os_path.join dst [os_path.basename src] else dst in
  let same := match stat cwd fs src, stat cwd fs dst with
              | Ok (ksrc, _), Ok (kdst, _) => bool_decide (ksrc = kdst)
              | _, _ => false
              end in
  if same then (Raise SameFileError, fs)
  else
    match stat cwd fs src with
    | Raise e => (Raise e, fs)
    | Ok (_, StDir) => (Raise IsADirectoryError, fs)
    | Ok (_, StFile d) =>
        if negb (readable d) then (Raise PermissionError, fs)
        else
          match resolve cwd fs dst with
          | Raise e => (Raise e, fs)
          | Ok kdst =>
              match fs !! kdst with
              | Some Dir => (Raise IsADirectoryError, fs)
              | Some (Link _) => (Raise (OSError ELOOP), fs)
              | Some (File _) => (Ok tt, <[kdst := File d]> fs)
              | None =>
                  match fs !! removelast kdst with
                  | Some Dir => (Ok tt, <[kdst := File d]> fs)
                  | Some _ => (Raise NotADirectoryError, fs)
                  | None => (Raise FileNotFoundError, fs)
                  end
              end
          end
    end.

(** The entries of the directory at [k]: names with their nodes. *)
Definition children (fs : filetree) (k : list string)
    : list (string * node) :=
  omap (fun kn : list string * node =>
          match rev kn.1 with
          | name :: rparent =>
              if bool_decide (rev rparent = k) then Some (name, kn.2)
              else None
          | [] => None
          end) (map_to_list fs).

(** [os.scandir(top)] as [os.walk] uses it: the names of the entries that
    are directories ([entry.is_dir()], which follows links) and the names
    of the other entries. *)
Definition scandir (cwd : list string) (fs : filetree) (top : string)
    : result (list string * list string) :=
  match stat cwd fs top with
  | Ok (k, StDir) =>
      let names := (children fs k).*1 in
      let is_dir name := isdir cwd fs (os_path.join top [name]) in
      Ok (List.filter is_dir names,
          List.filter (fun name => negb (is_dir name)) names)
  | Ok (_, StFile _) => Raise NotADirectoryError
  | Raise e => Raise e
  end.

End FS.

(** ** Log records *)

Inductive level : Type := DEBUG | INFO | WARNING | ERROR.

(** One constructor per [logger] call of the program, with the values the
    message interpolates. *)
Inductive message : Type :=
| MsgInitWatchPaths (watch_paths : list string)
| MsgInitOutputPath (output_path : string)
| MsgInitDryRun (dry_run : bool)
| MsgExifFailed (file_path : string) (e : exn)
| MsgVideoFailed (file_path : string) (e : exn)
| MsgErrorProcessing (file_path : string) (e : exn)
| MsgSkipUnsupported (file_path : string)
| MsgNoDate (file_path : string)
| MsgSkipExists (dest_path : string)
| MsgCreatedDir (dest_dir : string)
| MsgDryRun (file_path dest_path : string)
| MsgCopied (file_path dest_path : string)
| MsgErrorOrganizing (file_path : string) (e : exn)
| MsgProcessingDirectory (directory : string)
| MsgFileCreated (src_path : string)
| MsgFileMoved (dest_path : string)
| MsgErrorLoadingConfiguration (e : exn)
| MsgConfigurationIncomplete
| MsgScanningExisting.

(** ** The state and the monad of effects *)

Record world : Type := mk_world {
  fs : filetree;
  log : list (level * message)
}.

Definition M (A : Type) : Type := world -> result A * world.

Definition ret {A} (a : A) : M A := fun w => (Ok a, w).

Definition bind {A B} (c : M A) (k : A -> M B) : M B :=
  fun w => match c w with
           | (Ok a, w') => k a w'
           | (Raise e, w') => (Raise e, w')
           end.

Definition raise {A} (e : exn) : M A := fun w => (Raise e, w).

(** [try: body  except Exception as e: handler e]. *)
Definition try_except {A} (body : M A) (handler : exn -> M A) : M A :=
  fun w => match body w with
           | (Ok a, w') => (Ok a, w')
           | (Raise e, w') => handler e w'
           end.

Declare Scope py_scope.
Delimit Scope py_scope with py.
Notation "'let*' x ':=' c 'in' k" := (bind c (fun x => k))
  (at level 10, x name, c at level 100, k at level 200) : py_scope.
Notation "c1 ';;' c2" := (bind c1 (fun _ => c2))
  (at level 100, c2 at level 200, right associativity) : py_scope.
Open Scope py_scope.

Definition logger (l : level) (m : message) : M unit :=
  fun w => (Ok tt, mk_world (fs w) (log w ++ [(l, m)])).

(** Lifting the outcome of a library call. *)
Definition lift {A} (r : result A) : M A :=
  match r with Ok a => ret a | Raise e => raise e end.

(** ** The platform: the working directory and the library calls whose
    results the program only consumes

    The two metadata readers are functions of the bytes of the file they
    are given. *)

Class Platform : Type := {
  (** the working directory of the process, as a resolved path *)
  cwd : list string;
  (** modification time of a directory *)
  dir_mtime : list string -> Z;
  (** [str.lower]: the Unicode lower-casing of a string *)
  str_lower : string -> string;
  (** on ASCII strings it lowers the letters [A] to [Z] and nothing else *)
  str_lower_ascii :
    forall s, PyStr.isascii s = true -> str_lower s = PyStr.ascii_lower s;
  (** [Image.open(path)._getexif()] on the bytes of a regular file: raises,
      or returns [None], or a dict from tag ids to values *)
  Image_getexif : list byte -> result (option (gmap Z pyval));
  (** [ffmpeg.probe(path)] on the bytes of a regular file: raises, or
      returns a dict; the outer option is the presence of the key
      ['format'], the inner one of the key ['tags'] *)
  ffmpeg_probe :
    list byte -> result (option (option (gmap string pyval)));
  (** [datetime.strptime(date_string, format)] on a [str]; [None] stands
      for [ValueError] *)
  strptime_str : string -> string -> option datetime;
  (** [datetime.fromtimestamp(t)] in the local time zone; it raises for a
      time stamp whose year [datetime] cannot hold *)
  fromtimestamp : Z -> result datetime;
  (** whether [strftime] pads [%Y] with zeros to four digits *)
  strftime_pads_year : bool
}.

Section Runtime.
Context `{Platform}.

Definition os_path_exists (p : string) : M bool :=
  fun w => (Ok (FS.exists_ cwd (fs w) p), w).

(** [os.path.getmtime(p)] raises [OSError] when [p] cannot be stat'ed. *)
Definition os_path_getmtime (p : string) : M Z :=
  fun w => match FS.stat cwd (fs w) p with
           | Ok (_, StFile d) => (Ok (mtime d), w)
           | Ok (k, StDir) => (Ok (dir_mtime k), w)
           | Raise e => (Raise e, w)
           end.

Definition os_makedirs (name : string) : M unit :=
  fun w => let '(r, fs') := FS.makedirs cwd (fs w) name in
           (r, mk_world fs' (log w)).

Definition shutil_copy2 (src dst : string) : M unit :=
  fun w => let '(r, fs') := FS.copy2 cwd (fs w) src dst in
           (r, mk_world fs' (log w)).

(** Opening a path for reading: its bytes when it is a regular file the
    process may read. *)
Definition read_file (p : string) : M (list byte) :=
  fun w => match FS.stat cwd (fs w) p with
           | Ok (_, StFile d) =>
               if readable d then (Ok (content d), w)
               else (Raise PermissionError, w)
           | Ok (_, StDir) => (Raise IsADirectoryError, w)
           | Raise e => (Raise e, w)
           end.

(** [with Image.open(file_path) as img: img._getexif()]. *)
Definition Image_open_getexif (file_path : string)
    : M (option (gmap Z pyval)) :=
  let* c := read_file file_path in
  lift (Image_getexif c).

Definition ffmpeg_probe_file (file_path : string)
    : M (option (option (gmap string pyval))) :=
  let* c := read_file file_path in
  lift (ffmpeg_probe c).

(** [datetime.strptime(date_str, fmt)]: [TypeError] unless [date_str] is
    a [str], [ValueError] when it does not match [fmt]. *)
Definition strptime (date_str : pyval) (fmt : string) : M datetime :=
  match date_str with
  | PyStr s => match strptime_str s fmt with
               | Some d => ret d
               | None => raise ValueError
               end
  | PyOther => raise TypeError
  end.

(** [d.strftime(fmt)] on this platform. *)
Definition strftime (d : datetime) (fmt : string) : string :=
  strftime_with strftime_pads_year d fmt.

End Runtime.

(** ** class PhotoOrganizer *)

Record PhotoOrganizer : Type := mk_organizer {
  watch_paths : list string;
  output_path : string;
  dry_run : bool
}.

(** [PhotoOrganizer.__init__]. *)
Definition PhotoOrganizer_init (watch_paths : list string)
    (output_path : string) (dry_run : bool) : M PhotoOrganizer :=
  logger INFO (MsgInitWatchPaths watch_paths) ;;
  logger INFO (MsgInitOutputPath output_path) ;;
  logger INFO (MsgInitDryRun dry_run) ;;
  ret (mk_organizer watch_paths output_path dry_run).

(** [self.supported_extensions['images']] and [['videos']], set once in
    [__init__]. *)
Definition supported_images : list string :=
  [".jpg"; ".jpeg"; ".png"; ".gif"; ".bmp"; ".tiff"; ".heic"; ".webp"].
Definition supported_videos : list string :=
  [".mp4"; ".mov"; ".avi"; ".mkv"; ".webm"; ".mpg"; ".m4v"].

(** How a block of statements ends: it falls through to the next
    statement, or it executes [return v]. *)
Inductive flow (R : Type) : Type :=
| Next
| Return (v : R).
Arguments Next {R}.
Arguments Return {R} v.

(** Truth value of [exif_data] in [if exif_data:]: [None] and the empty
    dict are false. *)
Definition truthy_dict (exif_data : option (gmap Z pyval)) : bool :=
  match exif_data with
  | Some d => negb (size d =? 0)%nat
  | None => false
  end.

Definition exif_format : string := "%Y:%m:%d %H:%M:%S".
Definition video_format : string := "%Y-%m-%dT%H:%M:%S.%fZ".

Section Organizer.
Context `{Platform}.
Import PyStr.

(** [for tag_id in tag_ids: if tag_id in exif_data: return strptime(...)] *)
Fixpoint exif_tag_loop (tag_ids : list Z) (exif_data : gmap Z pyval)
    : M (flow (option datetime)) :=
  match tag_ids with
  | [] => ret Next
  | tag_id :: rest =>
      match exif_data !! tag_id with
      | Some date_str =>
          let* d := strptime date_str exif_format in
          ret (Return (Some d))
      | None => exif_tag_loop rest exif_data
      end
  end.

(** The [try] statement of [get_file_date] (lines 45-73). *)
Definition metadata_block (file_path file_ext : string)
    : M (flow (option datetime)) :=
  try_except
    (if in_list file_ext supported_images then
       try_except
         (let* exif_data := Image_open_getexif file_path in
          if truthy_dict exif_data
          then exif_tag_loop [36867; 306] (default ∅ exif_data)
          else ret Next)
         (fun e => logger DEBUG (MsgExifFailed file_path e) ;; ret Next)
     else if in_list file_ext supported_videos then
       try_except
         (let* probe := ffmpeg_probe_file file_path in
          match probe with
          | Some (Some tags) =>
              match tags !! "creation_time" with
              | Some date_str =>
                  let* d := strptime date_str video_format in
                  ret (Return (Some d))
              | None => ret Next
              end
          | _ => raise KeyError
          end)
         (fun e => logger DEBUG (MsgVideoFailed file_path e) ;; ret Next)
     else ret Next)
    (fun e => logger ERROR (MsgErrorProcessing file_path e) ;; ret Next).

(** [PhotoOrganizer.get_file_date]: a [datetime], or [None]. *)
Definition get_file_date (self : PhotoOrganizer) (file_path : string)
    : M (option datetime) :=
  let file_ext := str_lower (os_path.splitext file_path).2 in
  let* r := metadata_block file_path file_ext in
  match r with
  | Return v => ret v
  | Next =>
      let* file_mtime := os_path_getmtime file_path in
      let* d := lift (fromtimestamp file_mtime) in
      ret (Some d)
  end.

(** [PhotoOrganizer.organize_file]. *)
Definition organize_file (self : PhotoOrganizer) (file_path : string)
    : M unit :=
  let file_ext := str_lower (os_path.splitext file_path).2 in
  let all_extensions := (supported_images ++ supported_videos)%list in
  if negb (in_list file_ext all_extensions) then
    logger DEBUG (MsgSkipUnsupported file_path)
  else
    try_except
      (let* file_date := get_file_date self file_path in
       match file_date with
       | None => logger WARNING (MsgNoDate file_path)
       | Some file_date =>
           let year_dir := str_of_Z (year file_date) in
           let date_dir := strftime file_date "%Y-%m-%d" in
           let dest_dir :=
             os_path.join (output_path self) [year_dir; date_dir] in
           let filename := os_path.basename file_path in
           let dest_path := os_path.join dest_dir [filename] in
           let* dest_exists := os_path_exists dest_path in
           if dest_exists then logger INFO (MsgSkipExists dest_path)
           else
             (let* dir_exists := os_path_exists dest_dir in
              if negb dir_exists && negb (dry_run self) then
                os_makedirs dest_dir ;;
                logger DEBUG (MsgCreatedDir dest_dir)
              else ret tt) ;;
             if dry_run self then
               logger INFO (MsgDryRun file_path dest_path)
             else
               shutil_copy2 file_path dest_path ;;
               logger INFO (MsgCopied file_path dest_path)
       end)
      (fun e => logger ERROR (MsgErrorOrganizing file_path e)).

(** [for x in xs: body x], collecting what the bodies return. *)
Fixpoint for_each {A B} (body : A -> M (list B)) (xs : list A)
    : M (list B) :=
  match xs with
  | [] => ret []
  | x :: rest =>
      let* v := body x in
      let* vs := for_each body rest in
      ret (v ++ vs)%list
  end.

(** The same for bodies that can run out of fuel. *)
Fixpoint for_each_fuel {A B} (body : A -> M (option (list B)))
    (xs : list A) : M (option (list B)) :=
  match xs with
  | [] => ret (Some [])
  | x :: rest =>
      let* v := body x in
      match v with
      | None => ret None
      | Some v =>
          let* vs := for_each_fuel body rest in
          ret (option_map (app v) vs)
      end
  end.

(** [for root, dirs, files in os.walk(top): body root dirs files]
    (top-down, [onerror=None], [followlinks=False]).  A directory is
    listed when the walk reaches it, after the bodies of everything before
    it have run; a directory that cannot be listed is skipped, and so is
    an entry of [dirs] that is a symbolic link.  [fuel] bounds the depth;
    [None] is returned when it is exhausted.  The list returned collects
    what the bodies return. *)
Fixpoint os_walk_for {B} (fuel : nat)
    (body : string -> list string -> list string -> M (list B))
    (top : string) : M (option (list B)) :=
  match fuel with
  | O => ret None
  | S fuel' =>
      fun w =>
        match FS.scandir cwd (fs w) top with
        | Raise _ => (Ok (Some []), w)
        | Ok (dirs, files) =>
            (let* v := body top dirs files in
             let* vs :=
               for_each_fuel
                 (fun dirname w' =>
                    if FS.islink cwd (fs w') (os_path.join top [dirname])
                    then (Ok (Some []), w')
                    else os_walk_for fuel' body
                           (os_path.join top [dirname]) w')
                 dirs in
             ret (option_map (app v) vs)) w
        end
  end.

(** [PhotoOrganizer.process_directory].  The result lists the paths
    [organize_file] was called on, in order. *)
Definition process_directory (fuel : nat) (self : PhotoOrganizer)
    (directory : string) : M (option (list string)) :=
  logger INFO (MsgProcessingDirectory directory) ;;
  os_walk_for fuel
    (fun root _ files =>
       for_each
         (fun filename =>
            let file_path := os_path.join root [filename] in
            organize_file self file_path ;;
            ret [file_path])
         files)
    directory.

(** ** class MediaFileHandler *)

(** A file system event of watchdog: [dest_path] is that of a move. *)
Record FileSystemEvent : Type := mk_event {
  is_directory : bool;
  src_path : string;
  dest_path : string
}.

Definition on_created (organizer : PhotoOrganizer) (event : FileSystemEvent)
    : M unit :=
  if negb (is_directory event) then
    logger DEBUG (MsgFileCreated (src_path event)) ;;
    organize_file organizer (src_path event)
  else ret tt.

Definition on_moved (organizer : PhotoOrganizer) (event : FileSystemEvent)
    : M unit :=
  if negb (is_directory event) then
    logger DEBUG (MsgFileMoved (dest_path event)) ;;
    organize_file organizer (dest_path event)
  else ret tt.

(** ** [main], up to the start of the observers *)

(** The command line, as [argparse] returns it. *)
Record Namespace : Type := mk_args {
  config : string;
  arg_dry_run : bool;
  scan_existing : bool
}.

(** The configuration read from the JSON file: the values of the keys
    [watch_paths] (a list of strings) and [output_path] (a string), each
    absent or present. *)
Record Config : Type := mk_config {
  cfg_watch_paths : option (list string);
  cfg_output_path : option string
}.

(** Lines 163-185 of [main]; [loaded] is the outcome of opening and
    parsing the configuration file.  The result is the organizer the
    observers are then set up with, or [None] when [main] returns early. *)
Definition main_startup (fuel : nat) (args : Namespace)
    (loaded : result Config) : M (option PhotoOrganizer) :=
  match loaded with
  | Raise e =>
      logger ERROR (MsgErrorLoadingConfiguration e) ;; ret None
  | Ok cfg =>
      let watch_paths := default [] (cfg_watch_paths cfg) in
      let output_path := default "" (cfg_output_path cfg) in
      if FS.is_nil watch_paths || is_empty output_path then
        logger ERROR MsgConfigurationIncomplete ;; ret None
      else
        let* organizer :=
          PhotoOrganizer_init watch_paths output_path (arg_dry_run args) in
        (if scan_existing args then
           logger INFO MsgScanningExisting ;;
           for_each
             (fun directory =>
                process_directory fuel organizer directory ;;
                ret ([] : list unit))
             watch_paths ;;
           ret tt
         else ret tt) ;;
        ret (Some organizer)
  end.

End Organizer.

(** ** A reference platform

    A concrete [Platform] on which the model runs: the root as working
    directory, UTC as local time zone, the lower-casing of ASCII, a
    fixed-width [strptime], a [strftime] that does not pad the year (as
    glibc), and toy container formats for the two metadata readers.  The
    theorems below hold for every platform; this one supplies closed
    instances of them. *)

Module Reference.
Import PyStr.

(** Days since 1970-01-01 to a civil date (proleptic Gregorian). *)
Definition civil_from_days (days : Z) : Z * Z * Z :=
  let z := days + 719468 in
  let era := z / 146097 in
  let doe := z - era * 146097 in
  let yoe := (doe - doe / 1460 + doe / 36524 - doe / 146096) / 365 in
  let doy := doe - (365 * yoe + yoe / 4 - yoe / 100) in
  let mp := (5 * doy + 2) / 153 in
  let d := doy - (153 * mp + 2) / 5 + 1 in
  let m := if mp <? 10 then mp + 3 else mp - 9 in
  let y := yoe + era * 400 + (if m <=? 2 then 1 else 0) in
  (y, m, d).

(** [datetime.fromtimestamp] in UTC: years 1 to 9999 only. *)
Definition utc_fromtimestamp (t : Z) : result datetime :=
  let '(y, m, d) := civil_from_days (t / 86400) in
  let s := t mod 86400 in
  if (1 <=? y) && (y <=? 9999)
  then Ok (mk_datetime y m d (s / 3600) (s mod 3600 / 60) (s mod 60) 0)
  else Raise ValueError.

(** Reading [width] decimal digits. *)
Fixpoint read_digits (width : nat) (acc : Z) (s : string)
    : option (Z * string) :=
  match width with
  | O => Some (acc, s)
  | S width' =>
      match s with
      | String c s' =>
          let n := Z.of_nat (nat_of_ascii c) in
          if (48 <=? n) && (n <=? 57)
          then read_digits width' (10 * acc + (n - 48)) s'
          else None
      | EmptyString => None
      end
  end.

Definition set_field (c : ascii) (v : Z) (d : datetime) : datetime :=
  if Ascii.eqb c "Y" then mk_datetime v (month d) (day d) (hour d) (minute d) (second d) (microsecond d)
  else if Ascii.eqb c "m" then mk_datetime (year d) v (day d) (hour d) (minute d) (second d) (microsecond d)
  else if Ascii.eqb c "d" then mk_datetime (year d) (month d) v (hour d) (minute d) (second d) (microsecond d)
  else if Ascii.eqb c "H" then mk_datetime (year d) (month d) (day d) v (minute d) (second d) (microsecond d)
  else if Ascii.eqb c "M" then mk_datetime (year d) (month d) (day d) (hour d) v (second d) (microsecond d)
  else if Ascii.eqb c "S" then mk_datetime (year d) (month d) (day d) (hour d) (minute d) v (microsecond d)
  else mk_datetime (year d) (month d) (day d) (hour d) (minute d) (second d) v.

Definition field_width (c : ascii) : nat :=
  if Ascii.eqb c "Y" then 4%nat else if Ascii.eqb c "f" then 6%nat else 2%nat.

Fixpoint parse_with (fmt : string) (s : string) (d : datetime)
    : option datetime :=
  match fmt with
  | EmptyString => if is_empty s then Some d else None
  | String "%" (String c fmt') =>
      match read_digits (field_width c) 0 s with
      | Some (v, s') => parse_with fmt' s' (set_field c v d)
      | None => None
      end
  | String c fmt' =>
      match s with
      | String c' s' => if Ascii.eqb c c' then parse_with fmt' s' d else None
      | EmptyString => None
      end
  end.

Definition valid_datetime (d : datetime) : bool :=
  (1 <=? year d) && (1 <=? month d) && (month d <=? 12) &&
  (1 <=? day d) && (day d <=? 31) && (hour d <=? 23) &&
  (minute d <=? 59) && (second d <=? 59).

Definition fixed_strptime (s fmt : string) : option datetime :=
  match parse_with fmt s (mk_datetime 1900 1 1 0 0 0 0) with
  | Some d => if valid_datetime d then Some d else None
  | None => None
  end.

(** Toy image container: the bytes spell fields separated by [;]; a field
    [O<text>] is the tag DateTimeOriginal, [D<text>] the tag DateTime, a
    field [N] makes [_getexif()] return [None], and a leading [!] is a
    file the reader cannot open. *)
Definition add_exif_field (d : gmap Z pyval) (f : string) : gmap Z pyval :=
  match f with
  | String "O" v => <[36867 := PyStr v]> d
  | String "D" v => <[306 := PyStr v]> d
  | String "B" _ => <[36867 := PyOther]> d
  | _ => d
  end.

Definition toy_getexif (c : list byte)
    : result (option (gmap Z pyval)) :=
  let s := String.string_of_list_byte c in
  if startswith s "!" then Raise (LibraryError "UnidentifiedImageError")
  else if String.eqb s "N" then Ok None
  else Ok (Some (fold_left add_exif_field (split_on ";" s) ∅)).

(** Toy video container: [C<text>] carries the tag creation_time, [T]
    has a tag store without it, [F] a format without tags, anything
    starting with [!] cannot be probed. *)
Definition toy_probe (c : list byte)
    : result (option (option (gmap string pyval))) :=
  match String.string_of_list_byte c with
  | String "C" v => Ok (Some (Some {["creation_time" := PyStr v]}))
  | String "T" _ => Ok (Some (Some ∅))
  | String "F" _ => Ok (Some None)
  | String "!" _ => Raise (LibraryError "ffmpeg.Error")
  | _ => Ok None
  end.

Definition platform : Platform := {|
  cwd := [];
  dir_mtime := fun _ => 0;
  str_lower := ascii_lower;
  str_lower_ascii := fun s _ => eq_refl;
  Image_getexif := toy_getexif;
  ffmpeg_probe := toy_probe;
  strptime_str := fixed_strptime;
  fromtimestamp := utc_fromtimestamp;
  strftime_pads_year := false
|}.

Definition bytes (s : string) : list byte := String.list_byte_of_string s.

(** A readable regular file. *)
Definition file (s : string) (m : Z) : node := File (mk_file (bytes s) m true).

(** A tree from a list of absolute paths and nodes, over the root. *)
Definition tree (l : list (list string * node)) : filetree :=
  <[[] := Dir]> (list_to_map l).

End Reference.

(** ** Notions the statements are written with *)

(** The media kind of a path, as the dispatch of [get_file_date] (lines 43,
    47 and 62) decides it. *)
Inductive MediaKind : Type := Image | Video | Unsupported.

(** The entries a call appended to the log. *)
Definition new_entries (w w' : world) : list (level * message) :=
  drop (length (log w)) (log w').

Section Statements.
Context `{Platform}.

(** [file_ext] of lines 43 and 83. *)
Definition file_ext_of (file_path : string) : string :=
  str_lower (os_path.splitext file_path).2.

Definition classify (file_path : string) : MediaKind :=
  if PyStr.in_list (file_ext_of file_path) supported_images then Image
  else if PyStr.in_list (file_ext_of file_path) supported_videos then Video
  else Unsupported.

(** The test of [organize_file] (lines 86-87). *)
Definition supported (file_path : string) : bool :=
  PyStr.in_list (file_ext_of file_path)
    (supported_images ++ supported_videos)%list.

(** [dest_dir] and [dest_path] as lines 99-107 compute them. *)
Definition dest_dir_of (self : PhotoOrganizer) (file_date : datetime)
    : string :=
  os_path.join (output_path self)
    [PyStr.str_of_Z (year file_date); strftime file_date "%Y-%m-%d"].

Definition dest_path_of (self : PhotoOrganizer) (file_date : datetime)
    (file_path : string) : string :=
  os_path.join (dest_dir_of self file_date) [os_path.basename file_path].

(** Lines 98-124 of [organize_file], for a resolved date. *)
Definition place (self : PhotoOrganizer) (file_path : string)
    (file_date : datetime) : M unit :=
  let dest_dir := dest_dir_of self file_date in
  let dest_path := dest_path_of self file_date file_path in
  let* dest_exists := os_path_exists dest_path in
  if dest_exists then logger INFO (MsgSkipExists dest_path)
  else
    (let* dir_exists := os_path_exists dest_dir in
     if negb dir_exists && negb (dry_run self) then
       os_makedirs dest_dir ;;
       logger DEBUG (MsgCreatedDir dest_dir)
     else ret tt) ;;
    if dry_run self then
      logger INFO (MsgDryRun file_path dest_path)
    else
      shutil_copy2 file_path dest_path ;;
      logger INFO (MsgCopied file_path dest_path).

(** The [except] clause of [organize_file] (lines 126-127). *)
Definition organize_handler (file_path : string) (e : exn) : M unit :=
  logger ERROR (MsgErrorOrganizing file_path e).

(** What [strptime] makes of a tag value: [None] when it raises. *)
Definition parse_tag (v : pyval) (fmt : string) : option datetime :=
  match v with
  | PyStr s => strptime_str s fmt
  | PyOther => None
  end.

(** What [Image.open(path)._getexif()] returns for a regular file. *)
Definition getexif_of (d : filedata) : result (option (gmap Z pyval)) :=
  if readable d then Image_getexif (content d) else Raise PermissionError.

(** What [ffmpeg.probe(path)] returns for a regular file. *)
Definition probe_of (d : filedata)
    : result (option (option (gmap string pyval))) :=
  if readable d then ffmpeg_probe (content d) else Raise PermissionError.

(** The date embedded in an image: the query of lines 50-57 as a
    function, [None] when the [try] block yields no date. *)
Definition embedded_image_date (d : filedata) : option datetime :=
  match getexif_of d with
  | Ok (Some exif_data) =>
      match exif_data !! 36867 with
      | Some v => parse_tag v exif_format
      | None =>
          match exif_data !! 306 with
          | Some v => parse_tag v exif_format
          | None => None
          end
      end
  | _ => None
  end.

(** The same for lines 65-68. *)
Definition embedded_video_date (d : filedata) : option datetime :=
  match probe_of d with
  | Ok (Some (Some tags)) =>
      match tags !! "creation_time" with
      | Some v => parse_tag v video_format
      | None => None
      end
  | _ => None
  end.

Definition embedded_date (file_path : string) (d : filedata)
    : option datetime :=
  match classify file_path with
  | Image => embedded_image_date d
  | Video => embedded_video_date d
  | Unsupported => None
  end.

(** The fallback of lines 76-77 for a modification time. *)
Definition mtime_date (t : Z) : result (option datetime) :=
  match fromtimestamp t with
  | Ok d => Ok (Some d)
  | Raise e => Raise e
  end.

(** [organize_file] ended in its [except] clause. *)
Definition fails_outright (self : PhotoOrganizer) (file_path : string)
    (w : world) : Prop :=
  exists e, (ERROR, MsgErrorOrganizing file_path e)
            ∈ new_entries w (organize_file self file_path w).2.

(** Date resolution raised. *)
Definition resolution_fails (self : PhotoOrganizer) (file_path : string)
    (w : world) : Prop :=
  exists e, (get_file_date self file_path w).1 = Raise e.

End Statements.

#[global] Arguments dest_dir_of : simpl never.
#[global] Arguments dest_path_of : simpl never.

(** * Properties *)

Example splitext_examples :
  os_path.splitext "/in/IMG_1.JPG" = ("/in/IMG_1", ".JPG") /\
  os_path.splitext "/in/.bashrc" = ("/in/.bashrc", "") /\
  os_path.splitext "/in.d/readme" = ("/in.d/readme", "") /\
  os_path.splitext "a.tar.gz" = ("a.tar", ".gz") /\
  os_path.splitext "..jpg" = ("..jpg", "") /\
  os_path.splitext "x." = ("x", ".").
Proof. repeat split; reflexivity. Qed.

Example join_examples :
  os_path.join "/out" ["2023"; "2023-06-15"] = "/out/2023/2023-06-15" /\
  os_path.join "/out/" ["2023"; "2023-06-15"] = "/out/2023/2023-06-15" /\
  os_path.join "" ["2023"; "2023-06-15"] = "2023/2023-06-15" /\
  os_path.basename "/in/sub/a.jpg" = "a.jpg" /\
  os_path.basename "/in/sub/" = "".
Proof. repeat split; reflexivity. Qed.

Example str_examples :
  PyStr.str_of_Z 2023 = "2023" /\ PyStr.str_of_Z 0 = "0" /\
  PyStr.str_of_Z 7 = "7" /\ PyStr.str_of_Z (-12) = "-12" /\
  PyStr.zfill 2 (PyStr.str_of_Z 6) = "06" /\
  PyStr.ascii_lower ".JpEg" = ".jpeg".
Proof. repeat split; reflexivity. Qed.

Example strftime_examples :
  strftime_with false (mk_datetime 2023 6 15 10 0 0 0) "%Y-%m-%d"
    = "2023-06-15" /\
  strftime_with false (mk_datetime 999 1 1 0 0 0 0) "%Y-%m-%d"
    = "999-01-01" /\
  strftime_with true (mk_datetime 999 1 1 0 0 0 0) "%Y-%m-%d"
    = "0999-01-01".
Proof. repeat split; reflexivity. Qed.

(** ** The monad: computations that only append to the log *)

Section Framing.

(** [c] reads the file tree only: its result and its effect on the tree
    do not depend on the log, to which it appends. *)
Definition framed {A} (c : M A) : Prop :=
  forall f l,
    c (mk_world f l) =
    ((c (mk_world f [])).1,
     mk_world (fs (c (mk_world f [])).2)
              (l ++ log (c (mk_world f [])).2)).

Lemma framed_ret {A} (a : A) : framed (ret a).
Proof. intros f l. unfold ret. simpl. by rewrite app_nil_r. Qed.

Lemma framed_raise {A} (e : exn) : framed (@raise A e).
Proof. intros f l. unfold raise. simpl. by rewrite app_nil_r. Qed.

Lemma framed_lift {A} (r : result A) : framed (lift r).
Proof. destruct r; [apply framed_ret|apply framed_raise]. Qed.

Lemma framed_logger lv m : framed (logger lv m).
Proof. intros f l. reflexivity. Qed.

Lemma framed_bind {A B} (c : M A) (k : A -> M B) :
  framed c -> (forall a, framed (k a)) -> framed (bind c k).
Proof.
  intros Hc Hk f l. unfold bind. rewrite (Hc f l).
  destruct (c (mk_world f [])) as [[a|e] [f' l']]; simpl.
  - rewrite (Hk a f' (l ++ l')), (Hk a f' l').
    destruct (k a (mk_world f' [])) as [r [f'' l'']]; simpl.
    by rewrite app_assoc.
  - reflexivity.
Qed.

Lemma framed_try {A} (c : M A) (h : exn -> M A) :
  framed c -> (forall e, framed (h e)) -> framed (try_except c h).
Proof.
  intros Hc Hh f l. unfold try_except. rewrite (Hc f l).
  destruct (c (mk_world f [])) as [[a|e] [f' l']]; simpl.
  - reflexivity.
  - rewrite (Hh e f' (l ++ l')), (Hh e f' l').
    destruct (h e (mk_world f' [])) as [r [f'' l'']]; simpl.
    by rewrite app_assoc.
Qed.

(** A computation that reads the tree and leaves the state alone. *)
Lemma framed_read {A} (g : filetree -> result A) :
  framed (fun w => (g (fs w), w)).
Proof. intros f l. simpl. by rewrite app_nil_r. Qed.

(** A computation that transforms the tree and leaves the log alone. *)
Lemma framed_update {A} (g : filetree -> result A * filetree) :
  framed (fun w => let '(r, fs') := g (fs w) in (r, mk_world fs' (log w))).
Proof.
  intros f l. simpl. destruct (g f) as [r f']. simpl. by rewrite app_nil_r.
Qed.

Lemma framed_ext {A} (c c' : M A) :
  (forall w, c w = c' w) -> framed c -> framed c'.
Proof. intros E Hc f l. rewrite <- !E. apply Hc. Qed.

Lemma framed_if {A} (b : bool) (c c' : M A) :
  framed c -> framed c' -> framed (if b then c else c').
Proof. by destruct b. Qed.

End Framing.

Create HintDb framed.

#[global] Hint Resolve framed_ret framed_raise framed_lift framed_logger
  framed_bind framed_try framed_if : framed.

Section RuntimeFacts.
Context `{Platform}.

Lemma framed_exists p : framed (os_path_exists p).
Proof.
  apply (framed_ext (fun w => (Ok (FS.exists_ cwd (fs w) p), w)));
    [done|]. apply (framed_read (fun f => Ok (FS.exists_ cwd f p))).
Qed.

Lemma framed_getmtime p : framed (os_path_getmtime p).
Proof.
  apply (framed_ext
           (fun w => (match FS.stat cwd (fs w) p with
                      | Ok (_, StFile d) => Ok (mtime d)
                      | Ok (k, StDir) => Ok (dir_mtime k)
                      | Raise e => Raise e
                      end, w))).
  - intros w. unfold os_path_getmtime.
    by destruct (FS.stat cwd (fs w) p) as [[k [d|]]|e].
  - apply (framed_read (fun f => match FS.stat cwd f p with
                                 | Ok (_, StFile d) => Ok (mtime d)
                                 | Ok (k, StDir) => Ok (dir_mtime k)
                                 | Raise e => Raise e
                                 end)).
Qed.

Lemma framed_read_file p : framed (read_file p).
Proof.
  apply (framed_ext
           (fun w => (match FS.stat cwd (fs w) p with
                      | Ok (_, StFile d) =>
                          if readable d then Ok (content d)
                          else Raise PermissionError
                      | Ok (_, StDir) => Raise IsADirectoryError
                      | Raise e => Raise e
                      end, w))).
  - intros w. unfold read_file.
    destruct (FS.stat cwd (fs w) p) as [[k [d|]]|e]; try done.
    by destruct (readable d).
  - apply (framed_read (fun f => match FS.stat cwd f p with
                                 | Ok (_, StFile d) =>
                                     if readable d then Ok (content d)
                                     else Raise PermissionError
                                 | Ok (_, StDir) => Raise IsADirectoryError
                                 | Raise e => Raise e
                                 end)).
Qed.

Lemma framed_makedirs name : framed (os_makedirs name).
Proof. apply (framed_update (fun f => FS.makedirs cwd f name)). Qed.

Lemma framed_copy2 src dst : framed (shutil_copy2 src dst).
Proof. apply (framed_update (fun f => FS.copy2 cwd f src dst)). Qed.

Lemma framed_strptime v fmt : framed (strptime v fmt).
Proof.
  unfold strptime. destruct v as [s|]; [|auto with framed].
  destruct (strptime_str s fmt); auto with framed.
Qed.

End RuntimeFacts.

#[global] Hint Resolve framed_exists framed_getmtime framed_read_file
  framed_makedirs framed_copy2 framed_strptime : framed.

(** ** Date resolution *)

Section DateResolution.
Context `{Platform}.

Definition flow_of (o : option datetime) : flow (option datetime) :=
  match o with
  | Some d => Return (Some d)
  | None => Next
  end.

(** The regular file a path gives access to. *)
Definition data_at (fs : filetree) (p : string) : option filedata :=
  match FS.stat cwd fs p with
  | Ok (_, StFile d) => Some d
  | _ => None
  end.

(** The date [get_file_date] resolves, from the outcome of [stat]. *)
Definition date_of_stat (file_path : string)
    (st : result (list string * stat_result)) : result (option datetime) :=
  match st with
  | Ok (_, StFile d) =>
      match embedded_date file_path d with
      | Some x => Ok (Some x)
      | None => mtime_date (mtime d)
      end
  | Ok (k, StDir) => mtime_date (dir_mtime k)
  | Raise e => Raise e
  end.

(** The entries a failed metadata query logs. *)
Definition is_metadata_failure (m : message) : bool :=
  match m with
  | MsgExifFailed _ _ | MsgVideoFailed _ _ => true
  | _ => false
  end.

(** Entries of level [DEBUG] from the metadata queries only. *)
Definition debug_only (l : list (level * message)) : Prop :=
  Forall (fun x => x.1 = DEBUG /\ is_metadata_failure x.2 = true) l.

Ltac solve_dbg :=
  eexists; split; [reflexivity|by repeat constructor].

Lemma world_eta w : mk_world (fs w) (log w ++ []) = w.
Proof. destruct w. simpl. by rewrite app_nil_r. Qed.

Lemma strptime_run v fmt w :
  strptime v fmt w =
  match parse_tag v fmt with
  | Some d => (Ok d, w)
  | None => (Raise (match v with PyStr _ => ValueError
                             | PyOther => TypeError end), w)
  end.
Proof.
  unfold strptime, parse_tag. destruct v as [s|]; [|done].
  by destruct (strptime_str s fmt).
Qed.

Lemma exif_tag_loop_run d w :
  exists r,
    exif_tag_loop [36867; 306] d w = (r, w) /\
    match r with
    | Ok fl =>
        fl = flow_of (match d !! 36867 with
                      | Some v => parse_tag v exif_format
                      | None => match d !! 306 with
                                | Some v => parse_tag v exif_format
                                | None => None
                                end
                      end)
    | Raise _ =>
        match d !! 36867 with
        | Some v => parse_tag v exif_format
        | None => match d !! 306 with
                  | Some v => parse_tag v exif_format
                  | None => None
                  end
        end = None
    end.
Proof.
  simpl. unfold bind, ret.
  destruct (d !! 36867) as [v|].
  - rewrite strptime_run. destruct (parse_tag v exif_format); by eexists.
  - destruct (d !! 306) as [v|]; [|by eexists].
    rewrite strptime_run. destruct (parse_tag v exif_format); by eexists.
Qed.

Lemma truthy_dict_false_lookup (d : gmap Z pyval) (i : Z) :
  truthy_dict (Some d) = false -> d !! i = None.
Proof.
  unfold truthy_dict. intros E. apply negb_false_iff, Nat.eqb_eq in E.
  apply map_size_empty_iff in E. subst. apply lookup_empty.
Qed.

Lemma Image_open_getexif_run file_path w :
  Image_open_getexif file_path w =
  (match FS.stat cwd (fs w) file_path with
   | Ok (_, StFile d) => getexif_of d
   | Ok (_, StDir) => Raise IsADirectoryError
   | Raise e => Raise e
   end, w).
Proof.
  unfold Image_open_getexif, bind, read_file, getexif_of.
  destruct (FS.stat cwd (fs w) file_path) as [[k [d|]]|e]; try done.
  destruct (readable d); [|done].
  by destruct (Image_getexif (content d)).
Qed.

Lemma ffmpeg_probe_file_run file_path w :
  ffmpeg_probe_file file_path w =
  (match FS.stat cwd (fs w) file_path with
   | Ok (_, StFile d) => probe_of d
   | Ok (_, StDir) => Raise IsADirectoryError
   | Raise e => Raise e
   end, w).
Proof.
  unfold ffmpeg_probe_file, bind, read_file, probe_of.
  destruct (FS.stat cwd (fs w) file_path) as [[k [d|]]|e]; try done.
  destruct (readable d); [|done].
  by destruct (ffmpeg_probe (content d)).
Qed.

Lemma image_block_run file_path w :
  exists dbg,
    try_except
      (let* exif_data := Image_open_getexif file_path in
       if truthy_dict exif_data
       then exif_tag_loop [36867; 306] (default ∅ exif_data)
       else ret Next)
      (fun e => logger DEBUG (MsgExifFailed file_path e) ;; ret Next) w
    = (Ok (flow_of (d ← data_at (fs w) file_path; embedded_image_date d)),
       mk_world (fs w) (log w ++ dbg)) /\
    debug_only dbg.
Proof.
  unfold try_except, bind. rewrite Image_open_getexif_run.
  unfold data_at, embedded_image_date.
  destruct (FS.stat cwd (fs w) file_path) as [[k [d|]]|e];
    try solve_dbg.
  cbn [mbind option_bind].
  destruct (getexif_of d) as [[x|]|e];
    try solve_dbg.
  - destruct (truthy_dict (Some x)) eqn:E.
    + cbn [default from_option id].
      destruct (exif_tag_loop_run x w) as [[fl|e] [-> Hr]].
      * subst fl. exists []; split; [by rewrite world_eta|constructor].
      * rewrite Hr. solve_dbg.
    + rewrite !(truthy_dict_false_lookup x) by done.
      exists []; split; [by rewrite world_eta|constructor].
  - exists []; split; [by rewrite world_eta|constructor].
Qed.

Lemma video_block_run file_path w :
  exists dbg,
    try_except
      (let* probe := ffmpeg_probe_file file_path in
       match probe with
       | Some (Some tags) =>
           match tags !! "creation_time" with
           | Some date_str =>
               let* d := strptime date_str video_format in
               ret (Return (Some d))
           | None => ret Next
           end
       | _ => raise KeyError
       end)
      (fun e => logger DEBUG (MsgVideoFailed file_path e) ;; ret Next) w
    = (Ok (flow_of (d ← data_at (fs w) file_path; embedded_video_date d)),
       mk_world (fs w) (log w ++ dbg)) /\
    debug_only dbg.
Proof.
  unfold try_except, bind. rewrite ffmpeg_probe_file_run.
  unfold data_at, embedded_video_date.
  destruct (FS.stat cwd (fs w) file_path) as [[k [d|]]|e];
    try solve_dbg.
  cbn [mbind option_bind].
  destruct (probe_of d) as [[[tags|]|]|e];
    try solve_dbg.
  destruct (tags !! "creation_time") as [v|].
  - rewrite strptime_run. destruct (parse_tag v video_format).
    + exists []; split; [by rewrite world_eta|constructor].
    + solve_dbg.
  - exists []; split; [by rewrite world_eta|constructor].
Qed.

Lemma metadata_block_run file_path w :
  exists dbg,
    metadata_block file_path (file_ext_of file_path) w
    = (Ok (flow_of (d ← data_at (fs w) file_path;
                    embedded_date file_path d)),
       mk_world (fs w) (log w ++ dbg)) /\
    debug_only dbg.
Proof.
  unfold metadata_block, embedded_date, classify.
  unfold try_except at 1.
  destruct (PyStr.in_list (file_ext_of file_path) supported_images).
  - destruct (image_block_run file_path w) as [dbg [-> D]]. eauto.
  - destruct (PyStr.in_list (file_ext_of file_path) supported_videos).
    + destruct (video_block_run file_path w) as [dbg [-> D]]. eauto.
    + unfold ret. exists []. rewrite world_eta.
      split; [|constructor]. by destruct (data_at (fs w) file_path).
Qed.

(** [get_file_date] resolves [date_of_stat] and only appends to the
    log. *)
Lemma get_file_date_run self file_path w :
  exists dbg,
    get_file_date self file_path w
    = (date_of_stat file_path (FS.stat cwd (fs w) file_path),
       mk_world (fs w) (log w ++ dbg)) /\
    debug_only dbg.
Proof.
  unfold get_file_date, bind. fold (file_ext_of file_path).
  destruct (metadata_block_run file_path w) as [dbg [-> D]].
  exists dbg. split; [|done].
  unfold data_at, date_of_stat, os_path_getmtime, mtime_date, lift, ret,
    raise.
  cbn [fs].
  destruct (FS.stat cwd (fs w) file_path) as [[k [d|]]|e] eqn:E;
    cbn; try destruct (embedded_date file_path d); cbn;
    rewrite ?E; try reflexivity.
  - by destruct (fromtimestamp (mtime d)).
  - by destruct (fromtimestamp (dir_mtime k)).
Qed.

End DateResolution.

(** ** One call of [organize_file] *)

Section OrganizeFile.
Context `{Platform}.

Definition organize_body (self : PhotoOrganizer) (file_path : string)
    : M unit :=
  let* file_date := get_file_date self file_path in
  match file_date with
  | None => logger WARNING (MsgNoDate file_path)
  | Some file_date => place self file_path file_date
  end.

Lemma organize_file_eq self file_path :
  organize_file self file_path =
  if negb (supported file_path)
  then logger DEBUG (MsgSkipUnsupported file_path)
  else try_except (organize_body self file_path)
                  (organize_handler file_path).
Proof. reflexivity. Qed.

Lemma date_of_stat_not_None file_path st :
  date_of_stat file_path st <> Ok None.
Proof.
  destruct st as [[k [d|]]|e]; cbn; unfold mtime_date; try done.
  - destruct (embedded_date file_path d); [done|].
    by destruct (fromtimestamp (mtime d)).
  - by destruct (fromtimestamp (dir_mtime k)).
Qed.

(** The date is a function of the tree. *)
Lemma get_file_date_fs self file_path w r w' :
  get_file_date self file_path w = (r, w') ->
  r = date_of_stat file_path (FS.stat cwd (fs w) file_path) /\
  fs w' = fs w /\ exists dbg, log w' = log w ++ dbg /\ debug_only dbg.
Proof.
  destruct (get_file_date_run self file_path w) as [dbg [-> D]].
  intros [= <- <-]. eauto.
Qed.

Lemma organize_body_run self file_path w :
  exists dbg,
    organize_body self file_path w =
    match date_of_stat file_path (FS.stat cwd (fs w) file_path) with
    | Ok (Some d) =>
        place self file_path d (mk_world (fs w) (log w ++ dbg))
    | Ok None =>
        logger WARNING (MsgNoDate file_path)
          (mk_world (fs w) (log w ++ dbg))
    | Raise e => (Raise e, mk_world (fs w) (log w ++ dbg))
    end /\ debug_only dbg.
Proof.
  unfold organize_body, bind.
  destruct (get_file_date_run self file_path w) as [dbg [-> D]].
  exists dbg. split; [|done].
  by destruct (date_of_stat file_path (FS.stat cwd (fs w) file_path))
    as [[d|]|e].
Qed.


(** *** The placement step *)

Lemma place_exists self file_path d w :
  FS.exists_ cwd (fs w) (dest_path_of self d file_path) = true ->
  place self file_path d w =
  (Ok tt, mk_world (fs w)
            (log w ++ [(INFO, MsgSkipExists (dest_path_of self d file_path))])).
Proof.
  intros E. unfold place, bind, os_path_exists. by rewrite E.
Qed.

Lemma place_dry_run self file_path d w :
  FS.exists_ cwd (fs w) (dest_path_of self d file_path) = false ->
  dry_run self = true ->
  place self file_path d w =
  (Ok tt, mk_world (fs w)
            (log w ++ [(INFO, MsgDryRun file_path
                                (dest_path_of self d file_path))])).
Proof.
  intros E D. unfold place, bind, os_path_exists. rewrite E, D.
  rewrite andb_false_r. by destruct w.
Qed.

(** The tree after the directory step of a real run. *)
Definition after_makedirs (self : PhotoOrganizer) (d : datetime)
    (f : filetree)
    : result unit * filetree :=
  if FS.exists_ cwd f (dest_dir_of self d) then (Ok tt, f)
  else FS.makedirs cwd f (dest_dir_of self d).

Definition created_dir_entries (self : PhotoOrganizer) (d : datetime)
    (f : filetree) : list (level * message) :=
  if FS.exists_ cwd f (dest_dir_of self d) then []
  else [(DEBUG, MsgCreatedDir (dest_dir_of self d))].

Lemma place_real self file_path d w :
  FS.exists_ cwd (fs w) (dest_path_of self d file_path) = false ->
  dry_run self = false ->
  place self file_path d w =
  match after_makedirs self d (fs w) with
  | (Raise e, f1) => (Raise e, mk_world f1 (log w))
  | (Ok _, f1) =>
      let lg := log w ++ created_dir_entries self d (fs w) in
      match FS.copy2 cwd f1 file_path (dest_path_of self d file_path) with
      | (Raise e, f2) => (Raise e, mk_world f2 lg)
      | (Ok _, f2) =>
          (Ok tt, mk_world f2
                    (lg ++ [(INFO, MsgCopied file_path
                                     (dest_path_of self d file_path))]))
      end
  end.
Proof.
  intros E D.
  unfold place, bind, os_path_exists, after_makedirs, created_dir_entries.
  rewrite E, D. cbn [fs negb andb].
  destruct (FS.exists_ cwd (fs w) (dest_dir_of self d));
    cbn [negb andb]; cbv beta iota.
  - unfold shutil_copy2, logger, ret. cbn [fs log]. rewrite app_nil_r.
    destruct (FS.copy2 cwd (fs w) file_path (dest_path_of self d file_path))
      as [[[]|e] f2]; reflexivity.
  - unfold os_makedirs, shutil_copy2, logger. cbn [fs log].
    destruct (FS.makedirs cwd (fs w) (dest_dir_of self d)) as [[[]|e] f1];
      [|reflexivity]. cbn [fs log].
    destruct (FS.copy2 cwd f1 file_path (dest_path_of self d file_path))
      as [[[]|e] f2]; reflexivity.
Qed.

(** *** Skipping: the destination exists *)

Lemma organize_skip_exists self file_path w d w1 :
  supported file_path = true ->
  get_file_date self file_path w = (Ok (Some d), w1) ->
  FS.exists_ cwd (fs w) (dest_path_of self d file_path) = true ->
  organize_file self file_path w =
  (Ok tt, mk_world (fs w)
            (log w1 ++ [(INFO, MsgSkipExists
                                 (dest_path_of self d file_path))])).
Proof.
  intros S D E. rewrite organize_file_eq, S. cbn [negb].
  unfold try_except, organize_body, bind. rewrite D.
  apply get_file_date_fs in D as (_ & Hfs & _).
  rewrite place_exists by (by rewrite Hfs). by rewrite Hfs.
Qed.

(** *** Unsupported paths *)

Lemma organize_unsupported self file_path w :
  supported file_path = false ->
  organize_file self file_path w =
  (Ok tt, mk_world (fs w)
            (log w ++ [(DEBUG, MsgSkipUnsupported file_path)])).
Proof. intros S. rewrite organize_file_eq, S. reflexivity. Qed.

(** *** Dry run *)

Lemma place_dry_run_fs self file_path d w :
  dry_run self = true -> fs (place self file_path d w).2 = fs w.
Proof.
  intros D.
  destruct (FS.exists_ cwd (fs w) (dest_path_of self d file_path)) eqn:E.
  - by rewrite place_exists.
  - by rewrite place_dry_run.
Qed.

Lemma organize_dry_run_fs self file_path w :
  dry_run self = true -> fs (organize_file self file_path w).2 = fs w.
Proof.
  intros D. rewrite organize_file_eq.
  destruct (negb (supported file_path)); [reflexivity|].
  unfold try_except.
  destruct (organize_body_run self file_path w) as [dbg [-> _]].
  destruct (date_of_stat file_path (FS.stat cwd (fs w) file_path))
    as [[d|]|e]; try reflexivity.
  pose proof (place_dry_run_fs self file_path d
                (mk_world (fs w) (log w ++ dbg)) D) as P.
  destruct (place self file_path d (mk_world (fs w) (log w ++ dbg)))
    as [[[]|e] w']; exact P.
Qed.

End OrganizeFile.

(** ** Strings and paths *)

Section StringFacts.
Import PyStr.

Lemma append_cons x (a b : string) : String x a +:+ b = String x (a +:+ b).
Proof. reflexivity. Qed.

Lemma append_nil_l (b : string) : "" +:+ b = b.
Proof. reflexivity. Qed.

Lemma append_assoc (a b c : string) : (a +:+ b) +:+ c = a +:+ (b +:+ c).
Proof.
  induction a as [|x a IH]; [done|]. rewrite !append_cons. by f_equal.
Qed.

Lemma append_nil_r (a : string) : a +:+ "" = a.
Proof.
  induction a as [|x a IH]; [done|]. rewrite append_cons. by f_equal.
Qed.

Lemma split_on_not_nil sep s : split_on sep s <> [].
Proof.
  destruct s as [|c s]; simpl; [done|].
  destruct (Ascii.eqb c sep); [done|].
  by destruct (split_on sep s).
Qed.

(** Splitting a string that has a separator in the middle. *)
Lemma split_on_app sep (a b : string) :
  split_on sep (a +:+ String sep b) = split_on sep a ++ split_on sep b.
Proof.
  induction a as [|x a IH]; rewrite ?append_cons, ?append_nil_l; simpl.
  - by rewrite Ascii.eqb_refl.
  - destruct (Ascii.eqb x sep); [by rewrite IH|].
    rewrite IH.
    pose proof (split_on_not_nil sep a).
    by destruct (split_on sep a).
Qed.

(** Characters of a string all satisfy a test. *)
Fixpoint all_chars (P : ascii -> bool) (s : string) : bool :=
  match s with
  | EmptyString => true
  | String c s' => P c && all_chars P s'
  end.

Definition no_char (c : ascii) (s : string) : bool :=
  all_chars (fun x => negb (Ascii.eqb x c)) s.

Lemma all_chars_app P a b :
  all_chars P (a +:+ b) = all_chars P a && all_chars P b.
Proof.
  induction a as [|x a IH]; rewrite ?append_cons, ?append_nil_l; simpl;
    [done|].
  by rewrite IH, andb_assoc.
Qed.

Lemma split_on_no_char sep s : no_char sep s = true -> split_on sep s = [s].
Proof.
  induction s as [|c s IH]; simpl; [done|].
  intros [E1 E2]%andb_true_iff. apply negb_true_iff in E1.
  rewrite E1, IH by done. done.
Qed.

Lemma split_on_all_no_char sep s :
  Forall (fun x => no_char sep x = true) (split_on sep s).
Proof.
  induction s as [|c s IH]; simpl.
  - by constructor.
  - destruct (Ascii.eqb c sep) eqn:E.
    + by constructor.
    + pose proof (split_on_not_nil sep s).
      destruct (split_on sep s) as [|x xs]; [done|].
      inversion IH; subst. constructor; [|done].
      unfold no_char in *. simpl. by rewrite E.
Qed.

Lemma last_Forall {A} (P : A -> Prop) (l : list A) (d : A) :
  l <> [] -> Forall P l -> P (List.last l d).
Proof.
  induction l as [|x l IH]; [done|]. intros _ F.
  inversion F; subst. destruct l as [|y l]; [done|].
  apply IH; done.
Qed.

Lemma basename_no_sep p : no_char os_path.sep (os_path.basename p) = true.
Proof.
  unfold os_path.basename.
  apply (last_Forall (fun x => no_char os_path.sep x = true)).
  - apply split_on_not_nil.
  - apply split_on_all_no_char.
Qed.

Lemma last_app_singleton {A} (l : list A) (x d : A) :
  List.last (l ++ [x]) d = x.
Proof. apply last_last. Qed.

Lemma startswith_no_char c s : no_char c s = true -> startswith s c = false.
Proof.
  destruct s as [|x s]; simpl; [done|].
  by intros [E _]%andb_true_iff; apply negb_true_iff in E.
Qed.

Lemma endswith_app s t c :
  t <> "" -> endswith (s +:+ t) c = endswith t c.
Proof.
  intros Ht. induction s as [|x s IH]; [done|].
  rewrite append_cons. simpl. destruct (s +:+ t) eqn:E; [|done].
  destruct s; [by rewrite append_nil_l in E; subst|done].
Qed.

Lemma endswith_no_char c s : no_char c s = true -> endswith s c = false.
Proof.
  induction s as [|x s IH]; simpl; [done|].
  intros [E1 E2]%andb_true_iff. apply negb_true_iff in E1.
  destruct s; [done|]. by apply IH.
Qed.

Lemma is_empty_app a b : is_empty (a +:+ b) = is_empty a && is_empty b.
Proof. by destruct a. Qed.

Lemma is_empty_true s : is_empty s = true <-> s = "".
Proof. by destruct s. Qed.

(** [os.path.join] with a plain name. *)
Lemma join2_name a b :
  no_char os_path.sep b = true ->
  os_path.join2 a b =
  if is_empty a || endswith a os_path.sep then a +:+ b
  else a +:+ String os_path.sep b.
Proof.
  intros Hb. unfold os_path.join2. by rewrite startswith_no_char.
Qed.

Lemma basename_join2 a b :
  no_char os_path.sep b = true -> os_path.basename (os_path.join2 a b) = b.
Proof.
  intros Hb. rewrite join2_name by done. unfold os_path.basename.
  destruct (is_empty a || endswith a os_path.sep) eqn:E.
  - apply orb_true_iff in E as [E|E].
    + apply is_empty_true in E. subst. rewrite append_nil_l.
      by rewrite split_on_no_char.
    + (* a ends with the separator *)
      assert (exists a', a = a' +:+ String os_path.sep "") as [a' ->].
      { clear Hb. induction a as [|x a IH]; [done|].
        simpl in E. destruct a as [|y a].
        - apply Ascii.eqb_eq in E. subst. by exists "".
        - destruct (IH E) as [a' ->]. by exists (String x a'). }
      rewrite append_assoc, append_cons, append_nil_l, split_on_app.
      rewrite (split_on_no_char _ b) by done. apply last_last.
  - rewrite split_on_app, (split_on_no_char _ b) by done. apply last_last.
Qed.

Lemma in_list_app x l1 l2 :
  in_list x (l1 ++ l2) = in_list x l1 || in_list x l2.
Proof. unfold in_list. apply existsb_app. Qed.

End StringFacts.

(** ** Classification *)

Section Classification.
Context `{Platform}.

Lemma supported_classify p :
  supported p = negb (match classify p with Unsupported => true
                                       | _ => false end).
Proof.
  unfold supported, classify. rewrite in_list_app.
  destruct (PyStr.in_list (file_ext_of p) supported_images); [done|].
  by destruct (PyStr.in_list (file_ext_of p) supported_videos).
Qed.

Lemma supported_false_iff p : supported p = false <-> classify p = Unsupported.
Proof.
  rewrite supported_classify. destruct (classify p); split; done.
Qed.

(** The extension, hence the kind, is read off the base name. *)
Lemma file_ext_of_basename p :
  file_ext_of p = str_lower (os_path.ext_of_basename (os_path.basename p)).
Proof. reflexivity. Qed.

Lemma classify_basename p q :
  os_path.basename p = os_path.basename q -> classify p = classify q.
Proof.
  intros E. unfold classify. by rewrite !file_ext_of_basename, E.
Qed.

Lemma supported_basename p q :
  os_path.basename p = os_path.basename q -> supported p = supported q.
Proof. intros E. by rewrite !supported_classify, (classify_basename p q). Qed.

(** The kind is a function of the lower-cased extension. *)
Lemma classify_ext p q :
  str_lower (os_path.splitext p).2 = str_lower (os_path.splitext q).2 ->
  classify p = classify q.
Proof. intros E. unfold classify, file_ext_of. by rewrite E. Qed.

(** On ASCII extensions, the lower-casing is that of the letters. *)
Lemma classify_ascii p q :
  PyStr.isascii (os_path.splitext p).2 = true ->
  PyStr.isascii (os_path.splitext q).2 = true ->
  PyStr.ascii_lower (os_path.splitext p).2
    = PyStr.ascii_lower (os_path.splitext q).2 ->
  classify p = classify q.
Proof.
  intros Ap Aq E. apply classify_ext.
  by rewrite !str_lower_ascii, E.
Qed.

Lemma classify_no_ext p :
  (os_path.splitext p).2 = "" -> classify p = Unsupported.
Proof.
  intros E. unfold classify, file_ext_of. rewrite E.
  by rewrite (str_lower_ascii "").
Qed.

End Classification.

(** ** The names of the destination directories *)

Section DestinationNames.
Context `{Platform}.
Import PyStr.

(** A string without slash or dot. *)
Definition plain_char (c : ascii) : bool :=
  negb (Ascii.eqb c os_path.sep) && negb (Ascii.eqb c os_path.extsep).

Definition plain (s : string) : bool := all_chars plain_char s.

Lemma plain_no_sep s : plain s = true -> no_char os_path.sep s = true.
Proof.
  unfold plain, no_char. induction s as [|c s IH]; simpl; [done|].
  intros [[E1 E2]%andb_true_iff E3]%andb_true_iff.
  by rewrite E1, IH.
Qed.

Lemma plain_no_dot s : plain s = true -> no_char os_path.extsep s = true.
Proof.
  unfold plain, no_char. induction s as [|c s IH]; simpl; [done|].
  intros [[E1 E2]%andb_true_iff E3]%andb_true_iff.
  by rewrite E2, IH.
Qed.

Lemma plain_app a b : plain (a +:+ b) = plain a && plain b.
Proof. apply all_chars_app. Qed.

Lemma digit_mod_plain n : plain_char (digit (n mod 10)) = true.
Proof.
  assert (0 <= n mod 10 < 10) as Hb by (apply Z.mod_pos_bound; lia).
  assert (n mod 10 = 0 \/ n mod 10 = 1 \/ n mod 10 = 2 \/ n mod 10 = 3 \/
          n mod 10 = 4 \/ n mod 10 = 5 \/ n mod 10 = 6 \/ n mod 10 = 7 \/
          n mod 10 = 8 \/ n mod 10 = 9) as Hc by lia.
  destruct Hc as [->|[->|[->|[->|[->|[->|[->|[->|[->| ->]]]]]]]]];
    reflexivity.
Qed.

Lemma digits_pos_plain fuel n acc :
  plain acc = true -> plain (digits_pos fuel n acc) = true.
Proof.
  revert n acc. induction fuel as [|fuel IH]; intros n acc Ha; [done|].
  assert (plain (String (digit (n mod 10)) acc) = true) as Hs.
  { unfold plain. cbn [all_chars]. rewrite digit_mod_plain. exact Ha. }
  cbn [digits_pos]. destruct (n / 10 =? 0); [done|]. by apply IH.
Qed.

Lemma digits_pos_not_empty fuel n acc :
  digits_pos (S fuel) n acc <> "".
Proof.
  revert n acc. induction fuel as [|fuel IH]; intros n acc.
  - cbn [digits_pos]. by destruct (n / 10 =? 0).
  - change (digits_pos (S (S fuel)) n acc)
      with (let acc' := String (digit (n mod 10)) acc in
            if n / 10 =? 0 then acc' else digits_pos (S fuel) (n / 10) acc').
    cbv zeta. destruct (n / 10 =? 0); [done|]. apply IH.
Qed.

Lemma str_of_Z_plain n : plain (str_of_Z n) = true.
Proof.
  unfold str_of_Z. destruct (n <? 0).
  - unfold plain. cbn [all_chars]. apply digits_pos_plain. done.
  - by apply digits_pos_plain.
Qed.

Lemma str_of_Z_not_empty n : str_of_Z n <> "".
Proof.
  unfold str_of_Z. destruct (n <? 0); [done|]. apply digits_pos_not_empty.
Qed.

Lemma zeros_plain k : plain (zeros k) = true.
Proof. induction k as [|k IH]; [done|]. exact IH. Qed.

Lemma zfill_plain k s : plain s = true -> plain (zfill k s) = true.
Proof. intros Hs. unfold zfill. by rewrite plain_app, zeros_plain, Hs. Qed.

Lemma app_not_empty_r (a b : string) : b <> "" -> a +:+ b <> "".
Proof. intros Hb. destruct a; [done|]. by rewrite append_cons. Qed.

Lemma zfill_not_empty k s : s <> "" -> zfill k s <> "".
Proof. intros Hs. by apply app_not_empty_r. Qed.

(** The year as [%Y] prints it on this platform. *)
Definition year_text (d : datetime) : string :=
  if strftime_pads_year then zfill 4 (str_of_Z (year d))
  else str_of_Z (year d).

Lemma year_text_plain d : plain (year_text d) = true.
Proof.
  unfold year_text. destruct strftime_pads_year.
  - apply zfill_plain, str_of_Z_plain.
  - apply str_of_Z_plain.
Qed.

Lemma year_text_not_empty d : year_text d <> "".
Proof.
  unfold year_text. destruct strftime_pads_year.
  - apply zfill_not_empty, str_of_Z_not_empty.
  - apply str_of_Z_not_empty.
Qed.

Lemma strftime_Ymd d :
  strftime d "%Y-%m-%d" =
  year_text d +:+
  String "-" (zfill 2 (str_of_Z (month d)) +:+
  String "-" (zfill 2 (str_of_Z (day d)))).
Proof.
  unfold strftime, year_text.
  change (strftime_with strftime_pads_year d "%Y-%m-%d")
    with ((if strftime_pads_year then zfill 4 (str_of_Z (year d))
           else str_of_Z (year d)) +:+
          String "-" (zfill 2 (str_of_Z (month d)) +:+
          String "-" (zfill 2 (str_of_Z (day d)) +:+ ""))).
  by rewrite append_nil_r.
Qed.

Lemma strftime_Ymd_no_sep d :
  no_char os_path.sep (strftime d "%Y-%m-%d") = true.
Proof.
  rewrite strftime_Ymd. unfold no_char.
  rewrite all_chars_app. cbn [all_chars]. rewrite all_chars_app.
  cbn [all_chars].
  fold (no_char os_path.sep (year_text d)).
  fold (no_char os_path.sep (zfill 2 (str_of_Z (month d)))).
  fold (no_char os_path.sep (zfill 2 (str_of_Z (day d)))).
  rewrite (plain_no_sep (year_text d)) by apply year_text_plain.
  by rewrite !plain_no_sep by (apply zfill_plain, str_of_Z_plain).
Qed.

Lemma strftime_Ymd_not_empty d : strftime d "%Y-%m-%d" <> "".
Proof. rewrite strftime_Ymd. by apply app_not_empty_r. Qed.

(** [a ⊕ b]: what [os.path.join] puts between [a] and a plain name. *)
Definition joint (a : string) : string :=
  if is_empty a || endswith a os_path.sep then "" else "/".

Lemma join2_joint a b :
  no_char os_path.sep b = true ->
  os_path.join2 a b = a +:+ joint a +:+ b.
Proof.
  intros Hb. rewrite join2_name by done. unfold joint.
  by destruct (is_empty a || endswith a os_path.sep).
Qed.

Ltac not_empty :=
  first [ apply strftime_Ymd_not_empty | apply str_of_Z_not_empty
        | discriminate | apply app_not_empty_r; not_empty ].

Lemma joint_app_r a b : b <> "" -> joint (a +:+ b) = joint b.
Proof.
  intros Hb. unfold joint.
  rewrite is_empty_app, endswith_app by done.
  destruct b; [done|]. cbn [is_empty]. by rewrite andb_false_r.
Qed.

Lemma joint_name b :
  b <> "" -> no_char os_path.sep b = true -> joint b = "/".
Proof.
  intros Hb Hn. unfold joint. rewrite endswith_no_char by done.
  by destruct b.
Qed.

(** The destination directory and path, spelled out. *)
Lemma dest_dir_of_eq self d :
  dest_dir_of self d =
  output_path self +:+ joint (output_path self) +:+
  str_of_Z (year d) +:+ "/" +:+ strftime d "%Y-%m-%d".
Proof.
  unfold dest_dir_of, os_path.join. cbn [fold_left].
  rewrite (join2_joint (output_path self))
    by apply plain_no_sep, str_of_Z_plain.
  rewrite join2_joint by apply strftime_Ymd_no_sep.
  rewrite (joint_app_r (output_path self))
    by not_empty.
  rewrite (joint_app_r (joint (output_path self)))
    by apply str_of_Z_not_empty.
  rewrite (joint_name (str_of_Z (year d)));
    [|apply str_of_Z_not_empty|apply plain_no_sep, str_of_Z_plain].
  by rewrite !append_assoc.
Qed.

Lemma joint_dest_dir self d : joint (dest_dir_of self d) = "/".
Proof.
  rewrite dest_dir_of_eq.
  rewrite (joint_app_r (output_path self)),
    (joint_app_r (joint (output_path self))),
    (joint_app_r (str_of_Z (year d))),
    (joint_app_r "/")
    by not_empty.
  apply joint_name;
    [apply strftime_Ymd_not_empty|apply strftime_Ymd_no_sep].
Qed.

Lemma dest_path_of_eq self d file_path :
  dest_path_of self d file_path =
  dest_dir_of self d +:+ "/" +:+ os_path.basename file_path.
Proof.
  unfold dest_path_of, os_path.join. cbn [fold_left].
  rewrite join2_joint by apply basename_no_sep.
  by rewrite joint_dest_dir.
Qed.

Lemma dest_path_basename self d file_path :
  os_path.basename (dest_path_of self d file_path) =
  os_path.basename file_path.
Proof.
  unfold dest_path_of, os_path.join. cbn [fold_left].
  apply basename_join2, basename_no_sep.
Qed.

End DestinationNames.

(** ** What one call does to the tree and to the log *)

Section Outcome.
Context `{Platform}.

(** The result of the placement step, the tree it leaves and the entries
    it logs, as a function of the tree it starts from. *)
Definition place_outcome (self : PhotoOrganizer) (file_path : string)
    (d : datetime) (f : filetree)
    : result unit * filetree * list (level * message) :=
  let dest_path := dest_path_of self d file_path in
  if FS.exists_ cwd f dest_path then
    (Ok tt, f, [(INFO, MsgSkipExists dest_path)])
  else if dry_run self then
    (Ok tt, f, [(INFO, MsgDryRun file_path dest_path)])
  else
    match after_makedirs self d f with
    | (Raise e, f1) => (Raise e, f1, [])
    | (Ok _, f1) =>
        match FS.copy2 cwd f1 file_path dest_path with
        | (Raise e, f2) => (Raise e, f2, created_dir_entries self d f)
        | (Ok _, f2) =>
            (Ok tt, f2,
             created_dir_entries self d f
               ++ [(INFO, MsgCopied file_path dest_path)])
        end
    end.

Lemma place_run self file_path d w :
  place self file_path d w =
  (let '(r, f', l) := place_outcome self file_path d (fs w) in
   (r, mk_world f' (log w ++ l))).
Proof.
  unfold place_outcome.
  destruct (FS.exists_ cwd (fs w) (dest_path_of self d file_path)) eqn:E.
  { by rewrite place_exists. }
  destruct (dry_run self) eqn:D.
  { by rewrite place_dry_run. }
  rewrite place_real by done.
  destruct (after_makedirs self d (fs w)) as [[[]|e] f1].
  - destruct (FS.copy2 cwd f1 file_path (dest_path_of self d file_path))
      as [[[]|e] f2]; [|done].
    by rewrite app_assoc.
  - by rewrite app_nil_r.
Qed.

(** The tree one call of [organize_file] leaves and the entries it logs
    after those of date resolution, for a supported path. *)
Definition organize_outcome (self : PhotoOrganizer) (file_path : string)
    (f : filetree)
    : filetree * list (level * message) :=
  match date_of_stat file_path (FS.stat cwd f file_path) with
  | Raise e => (f, [(ERROR, MsgErrorOrganizing file_path e)])
  | Ok None => (f, [(WARNING, MsgNoDate file_path)])
  | Ok (Some d) =>
      let '(r, f', l) := place_outcome self file_path d f in
      (f', l ++ match r with
                | Ok _ => []
                | Raise e => [(ERROR, MsgErrorOrganizing file_path e)]
                end)
  end.

Lemma organize_file_run self file_path w :
  supported file_path = true ->
  exists dbg,
    organize_file self file_path w =
    (Ok tt, mk_world (organize_outcome self file_path (fs w)).1
              (log w ++ dbg ++ (organize_outcome self file_path (fs w)).2))
    /\ debug_only dbg.
Proof.
  intros S. rewrite organize_file_eq, S. cbn [negb].
  unfold try_except, organize_outcome.
  destruct (organize_body_run self file_path w) as [dbg [-> D]].
  exists dbg. split; [|done].
  destruct (date_of_stat file_path (FS.stat cwd (fs w) file_path))
    as [[d|]|e].
  - rewrite place_run. cbn [fs log].
    destruct (place_outcome self file_path d (fs w)) as [[[[]|e] f'] l];
      unfold organize_handler, logger; cbn [fst snd fs log].
    + by rewrite app_nil_r, app_assoc.
    + by rewrite <- !app_assoc.
  - unfold logger. cbn [fst snd fs log]. by rewrite app_assoc.
  - unfold organize_handler, logger. cbn [fst snd fs log].
    by rewrite app_assoc.
Qed.

Lemma new_entries_app w f l : new_entries w (mk_world f (log w ++ l)) = l.
Proof. unfold new_entries. cbn [log]. by rewrite drop_app_length. Qed.

Lemma debug_only_elem (dbg : list (level * message)) lv m :
  debug_only dbg -> (lv, m) ∈ dbg ->
  lv = DEBUG /\ is_metadata_failure m = true.
Proof.
  intros D Hin. unfold debug_only in D.
  rewrite Forall_forall in D. by specialize (D _ Hin).
Qed.

Lemma debug_only_no_level (dbg : list (level * message)) lv m :
  debug_only dbg -> lv <> DEBUG -> (lv, m) ∉ dbg.
Proof.
  intros D Hl Hin. by destruct (debug_only_elem dbg lv m D Hin).
Qed.


End Outcome.

(** ** Reading the log of one call *)

Section Entries.
Context `{Platform}.

Lemma stat_lookup f p k n :
  FS.stat cwd f p = Ok (k, n) -> f !! k = Some (node_of n).
Proof.
  unfold FS.stat. destruct (FS.resolve cwd f p) as [k'|e]; [|done].
  destruct (f !! k') as [[d| |t]|] eqn:E; try done; by intros [= <- <-].
Qed.

Lemma stat_resolve f p k n :
  FS.stat cwd f p = Ok (k, n) -> FS.resolve cwd f p = Ok k.
Proof.
  unfold FS.stat. destruct (FS.resolve cwd f p) as [k'|e]; [|done].
  destruct (f !! k') as [[d| |t]|] eqn:E; try done; by intros [= <- <-].
Qed.

Lemma resolve_stat f p k n :
  FS.resolve cwd f p = Ok k -> f !! k = Some (node_of n) ->
  FS.stat cwd f p = Ok (k, n).
Proof. unfold FS.stat. intros -> ->. by destruct n. Qed.

Lemma exists_stat f p :
  FS.exists_ cwd f p = true <-> exists k n, FS.stat cwd f p = Ok (k, n).
Proof.
  unfold FS.exists_. destruct (FS.stat cwd f p) as [[k n]|e].
  - split; eauto.
  - split; [done|]. by intros (k & n & ?).
Qed.

Lemma isdir_stat f p :
  FS.isdir cwd f p = true <-> exists k, FS.stat cwd f p = Ok (k, StDir).
Proof.
  unfold FS.isdir. destruct (FS.stat cwd f p) as [[k [d|]]|e].
  - split; [done|]. by intros (k' & ?).
  - split; eauto.
  - split; [done|]. by intros (k' & ?).
Qed.

Lemma organize_new_entries self file_path w :
  exists dbg,
    debug_only dbg /\
    new_entries w (organize_file self file_path w).2 =
    if supported file_path
    then dbg ++ (organize_outcome self file_path (fs w)).2
    else [(DEBUG, MsgSkipUnsupported file_path)].
Proof.
  destruct (supported file_path) eqn:S.
  - destruct (organize_file_run self file_path w S) as [dbg [-> D]].
    exists dbg. split; [done|]. apply new_entries_app.
  - exists []. split; [constructor|].
    rewrite organize_unsupported by done. apply new_entries_app.
Qed.

Lemma get_file_date_result self file_path w :
  (get_file_date self file_path w).1 =
  date_of_stat file_path (FS.stat cwd (fs w) file_path).
Proof. by destruct (get_file_date_run self file_path w) as [dbg [-> _]]. Qed.

(** The entries of [place_outcome], case by case. *)
Lemma place_outcome_entry self file_path d f lv m :
  (lv, m) ∈ (place_outcome self file_path d f).2 ->
  let dest_path := dest_path_of self d file_path in
  (m = MsgSkipExists dest_path /\ lv = INFO /\
   FS.exists_ cwd f dest_path = true /\
   (place_outcome self file_path d f).1 = (Ok tt, f)) \/
  (m = MsgDryRun file_path dest_path /\ lv = INFO /\
   FS.exists_ cwd f dest_path = false /\ dry_run self = true /\
   (place_outcome self file_path d f).1 = (Ok tt, f)) \/
  (m = MsgCreatedDir (dest_dir_of self d) /\ lv = DEBUG /\
   FS.exists_ cwd f dest_path = false /\ dry_run self = false /\
   FS.exists_ cwd f (dest_dir_of self d) = false /\
   exists f1, FS.makedirs cwd f (dest_dir_of self d) = (Ok tt, f1)) \/
  (m = MsgCopied file_path dest_path /\ lv = INFO /\
   FS.exists_ cwd f dest_path = false /\ dry_run self = false /\
   exists f1 f2,
     after_makedirs self d f = (Ok tt, f1) /\
     FS.copy2 cwd f1 file_path dest_path = (Ok tt, f2) /\
     (place_outcome self file_path d f).1 = (Ok tt, f2)).
Proof.
  unfold place_outcome. cbv zeta.
  destruct (FS.exists_ cwd f (dest_path_of self d file_path)) eqn:E.
  { cbn [snd]. intros [= -> ->]%list_elem_of_singleton. left. done. }
  destruct (dry_run self) eqn:D.
  { cbn [snd]. intros [= -> ->]%list_elem_of_singleton. right; left. done. }
  unfold after_makedirs, created_dir_entries.
  destruct (FS.exists_ cwd f (dest_dir_of self d)) eqn:Ed.
  - destruct (FS.copy2 cwd f file_path (dest_path_of self d file_path))
      as [[[]|e] f2] eqn:C; cbn [snd fst].
    + intros [= -> ->]%list_elem_of_singleton. right; right; right.
      repeat split; try done. by exists f, f2.
    + by intros ?%elem_of_nil.
  - destruct (FS.makedirs cwd f (dest_dir_of self d)) as [[[]|e] f1] eqn:Mk;
      cbn [snd fst]; [|by intros ?%elem_of_nil].
    destruct (FS.copy2 cwd f1 file_path (dest_path_of self d file_path))
      as [[[]|e] f2] eqn:C; cbn [snd fst].
    + intros [[= -> ->]%list_elem_of_singleton | [= -> ->]%list_elem_of_singleton]%elem_of_app.
      * right; right; left. repeat split; try done. by exists f1.
      * right; right; right. repeat split; try done. by exists f1, f2.
    + intros [= -> ->]%list_elem_of_singleton.
      right; right; left. repeat split; try done. by exists f1.
Qed.

(** An entry above [DEBUG] of one call comes from [organize_outcome]. *)
Lemma organize_entry_outcome self file_path w lv m :
  lv <> DEBUG ->
  (lv, m) ∈ new_entries w (organize_file self file_path w).2 <->
  supported file_path = true /\
  (lv, m) ∈ (organize_outcome self file_path (fs w)).2.
Proof.
  intros Hl.
  destruct (organize_new_entries self file_path w) as (dbg & D & ->).
  destruct (supported file_path).
  - rewrite elem_of_app. split.
    + intros [Hin|Hin]; [|done].
      by apply (debug_only_no_level dbg lv m) in Hin.
    + intros [_ Hin]. by right.
  - split; [|by intros [? _]].
    intros [= -> _]%list_elem_of_singleton. done.
Qed.

End Entries.

(** ** Loops *)

Section Loops.
Context `{Platform}.

(** An invariant of the state that every run of [c] keeps. *)
Definition keeps {A} (I : world -> Prop) (c : M A) : Prop :=
  forall w, I w -> I (c w).2.

Lemma keeps_ret {A} I (a : A) : keeps I (ret a).
Proof. by intros w. Qed.

Lemma keeps_bind {A B} I (c : M A) (k : A -> M B) :
  keeps I c -> (forall a, keeps I (k a)) -> keeps I (bind c k).
Proof.
  intros Hc Hk w Hw. unfold bind. specialize (Hc w Hw).
  destruct (c w) as [[a|e] w']; [|done]. by apply Hk.
Qed.

Lemma keeps_for_each {A B} I (body : A -> M (list B)) xs :
  (forall x, keeps I (body x)) -> keeps I (for_each body xs).
Proof.
  intros Hb. induction xs as [|x xs IH]; [apply keeps_ret|].
  cbn [for_each]. apply keeps_bind; [apply Hb|]. intros v.
  apply keeps_bind; [apply IH|]. intros vs. apply keeps_ret.
Qed.

Lemma keeps_for_each_fuel {A B} I (body : A -> M (option (list B))) xs :
  (forall x, keeps I (body x)) -> keeps I (for_each_fuel body xs).
Proof.
  intros Hb. induction xs as [|x xs IH]; [apply keeps_ret|].
  cbn [for_each_fuel]. apply keeps_bind; [apply Hb|]. intros [v|].
  - apply keeps_bind; [apply IH|]. intros vs. apply keeps_ret.
  - apply keeps_ret.
Qed.

Lemma keeps_os_walk_for {B} I fuel
    (body : string -> list string -> list string -> M (list B)) top :
  (forall root dirs files, keeps I (body root dirs files)) ->
  keeps I (os_walk_for fuel body top).
Proof.
  intros Hb. revert top. induction fuel as [|fuel IH]; intros top.
  { apply keeps_ret. }
  intros w Hw. cbn [os_walk_for].
  destruct (FS.scandir cwd (fs w) top) as [[dirs files]|e]; [|done].
  revert w Hw. apply keeps_bind; [apply Hb|]. intros v.
  apply keeps_bind.
  - apply keeps_for_each_fuel. intros dirname w' Hw'. cbv beta.
    destruct (FS.islink cwd (fs w') (os_path.join top [dirname]));
      [done|]. by apply IH.
  - intros vs. apply keeps_ret.
Qed.

Lemma keeps_logger I lv m :
  (forall f l l', I (mk_world f l) -> I (mk_world f l')) ->
  keeps I (logger lv m).
Proof. intros HI [f l] Hw. unfold logger. cbn. by eapply HI. Qed.

(** [process_directory] keeps every invariant of the tree that
    [organize_file] keeps. *)
Lemma keeps_process_directory (J : filetree -> Prop)
    fuel self directory :
  (forall file_path, keeps (fun w => J (fs w)) (organize_file self file_path)) ->
  keeps (fun w => J (fs w)) (process_directory fuel self directory).
Proof.
  intros Ho. unfold process_directory.
  apply keeps_bind; [by apply keeps_logger|]. intros _.
  apply keeps_os_walk_for. intros root dirs files.
  apply keeps_for_each. intros filename.
  apply keeps_bind; [apply Ho|]. intros _. apply keeps_ret.
Qed.

(** With dry run enabled the tree stays as it is. *)
Lemma organize_dry_run_keeps self f0 file_path :
  dry_run self = true ->
  keeps (fun w => fs w = f0) (organize_file self file_path).
Proof. intros D w <-. by apply organize_dry_run_fs. Qed.

End Loops.

(** ** Well-formed trees and path resolution *)

Section Resolution.
Context `{Platform}.

(** A name a directory entry can have. *)
Definition valid_name (c : string) : bool :=
  negb (FS.is_dot_like c) && negb (String.eqb c "..")
  && no_char os_path.sep c.

(** The trees a file system can be in: the root and the working directory
    are directories, every other node has a valid name and sits in a
    directory, and the target of a link is a list of valid names. *)
Record wf_tree (f : filetree) : Prop := {
  wf_root : f !! [] = Some Dir;
  wf_cwd : f !! cwd = Some Dir;
  wf_parent : forall k c n,
    f !! (k ++ [c]) = Some n -> f !! k = Some Dir /\ valid_name c = true;
  wf_link : forall k t,
    f !! k = Some (Link t) -> Forall (fun c => valid_name c = true) t
}.

(** The two trees have the same symbolic links. *)
Definition same_links (f f' : filetree) : Prop :=
  forall k t, f !! k = Some (Link t) <-> f' !! k = Some (Link t).

(** Nodes stay, and stay of their kind; no link appears. *)
Record grows (f f' : filetree) : Prop := {
  grows_dir : forall k, f !! k = Some Dir -> f' !! k = Some Dir;
  grows_file : forall k d,
    f !! k = Some (File d) -> exists d', f' !! k = Some (File d');
  grows_links : same_links f f'
}.

(** A tree without symbolic links. *)
Definition no_links (f : filetree) : Prop :=
  forall k t, f !! k <> Some (Link t).

Lemma grows_refl f : grows f f.
Proof. split; [done|eauto|done]. Qed.


Lemma grows_some f f' k n :
  grows f f' -> f !! k = Some n -> is_Some (f' !! k).
Proof.
  intros [D F L] E. destruct n as [d| |t].
  - destruct (F k d E) as [d' ->]. eauto.
  - rewrite (D k E). eauto.
  - apply L in E. rewrite E. eauto.
Qed.

Lemma grows_no_links f f' : grows f f' -> no_links f -> no_links f'.
Proof. intros [_ _ L] N k t E. apply L in E. by apply N in E. Qed.

(** Adding a directory at a free place. *)
Lemma grows_insert_dir f k :
  f !! k = None -> grows f (<[k := Dir]> f).
Proof.
  intros E. split.
  - intros k' E'. rewrite lookup_insert_ne; [done|congruence].
  - intros k' d E'. exists d. rewrite lookup_insert_ne; [done|congruence].
  - intros k' t. destruct (decide (k' = k)) as [->|Hne].
    + rewrite lookup_insert_eq, E. split; done.
    + by rewrite lookup_insert_ne.
Qed.

(** Writing a regular file at a place that is free or holds one. *)
Lemma grows_insert_file f k d :
  f !! k <> Some Dir -> (forall t, f !! k <> Some (Link t)) ->
  grows f (<[k := File d]> f).
Proof.
  intros Hd Hl. split.
  - intros k' E'. rewrite lookup_insert_ne; [done|congruence].
  - intros k' d' E'. destruct (decide (k' = k)) as [->|Hne].
    + exists d. by rewrite lookup_insert_eq.
    + exists d'. by rewrite lookup_insert_ne.
  - intros k' t. destruct (decide (k' = k)) as [->|Hne].
    + rewrite lookup_insert_eq. split; [|done]. intros E. by apply Hl in E.
    + by rewrite lookup_insert_ne.
Qed.

(** *** Steps *)

Lemma step_cases cur c :
  FS.step cur c = cur \/ FS.step cur c = removelast cur \/
  (FS.step cur c = cur ++ [c] /\ FS.is_dot_like c = false /\
   String.eqb c ".." = false).
Proof.
  unfold FS.step. destruct (FS.is_dot_like c); [by left|].
  destruct (String.eqb c ".."); [by right; left|]. by right; right.
Qed.


Lemma removelast_length {A} (l : list A) :
  (length (removelast l) <= length l)%nat.
Proof.
  induction l as [|x l IH]; [done|]. destruct l; [cbn; lia|].
  cbn [removelast length] in *. lia.
Qed.

Lemma step_length cur c : (length (FS.step cur c) <= S (length cur))%nat.
Proof.
  destruct (step_cases cur c) as [->|[->|[-> _]]].
  - lia.
  - pose proof (removelast_length cur). lia.
  - rewrite length_app. cbn. lia.
Qed.






(** *** Following links *)

Lemma follow_unfold f b k :
  FS.follow f b k =
  match f !! k with
  | Some (Link t) =>
      match b with
      | O => Raise (OSError ELOOP)
      | S b' => FS.follow f b' t
      end
  | _ => Ok (k, b)
  end.
Proof. destruct b; cbn [FS.follow]; by destruct (f !! k) as [[| |]|]. Qed.


Lemma follow_same_links f f' b k :
  same_links f f' -> FS.follow f b k = FS.follow f' b k.
Proof.
  intros L. revert k. induction b as [|b IH]; intros k.
  - cbn [FS.follow].
    destruct (f !! k) as [[d| |t]|] eqn:E.
    + destruct (f' !! k) as [[d'| |t']|] eqn:E'; try done.
      apply L in E'. congruence.
    + destruct (f' !! k) as [[d'| |t']|] eqn:E'; try done.
      apply L in E'. congruence.
    + apply L in E. by rewrite E.
    + destruct (f' !! k) as [[d'| |t']|] eqn:E'; try done.
      apply L in E'. congruence.
  - cbn [FS.follow].
    destruct (f !! k) as [[d| |t]|] eqn:E.
    + destruct (f' !! k) as [[d'| |t']|] eqn:E'; try done.
      apply L in E'. congruence.
    + destruct (f' !! k) as [[d'| |t']|] eqn:E'; try done.
      apply L in E'. congruence.
    + apply L in E. rewrite E. apply IH.
    + destruct (f' !! k) as [[d'| |t']|] eqn:E'; try done.
      apply L in E'. congruence.
Qed.

(** Where following ends: at the place it started from, or at the target
    of a link; never on a link. *)
Lemma follow_end f b k k' b' :
  FS.follow f b k = Ok (k', b') ->
  (forall t, f !! k' <> Some (Link t)) /\ (b' <= b)%nat /\
  (k' = k \/ exists k0, f !! k0 = Some (Link k')).
Proof.
  revert k. induction b as [|b IH]; intros k; rewrite follow_unfold.
  - destruct (f !! k) as [[d| |t]|] eqn:E; try done;
      intros [= <- <-]; (split; [congruence|]); split; auto.
  - destruct (f !! k) as [[d| |t]|] eqn:E;
      try (intros [= <- <-]; (split; [congruence|]); split; by auto).
    intros Hf. destruct (IH t Hf) as (N & Lb & [->|[k0 E0]]).
    + split; [done|]. split; [lia|]. right. eauto.
    + split; [done|]. split; [lia|]. right. eauto.
Qed.


(** *** Resolution *)


(** Resolution goes through directories and links only, so it survives
    growth. *)
Lemma resolve_from_grows f f' b cur cs r :
  grows f f' ->
  FS.resolve_from f b cur cs = Ok r -> FS.resolve_from f' b cur cs = Ok r.
Proof.
  intros G. revert b cur. induction cs as [|c cs IH]; intros b cur; [done|].
  cbn [FS.resolve_from].
  destruct (f !! cur) as [[d| |t]|] eqn:E; try done.
  rewrite (grows_dir f f' G cur E).
  rewrite <- (follow_same_links f f') by apply G.
  destruct (FS.follow f b (FS.step cur c)) as [[k b']|e]; [|done].
  apply IH.
Qed.

Lemma resolve_grows f f' p k :
  grows f f' -> FS.resolve cwd f p = Ok k -> FS.resolve cwd f' p = Ok k.
Proof.
  intros G. unfold FS.resolve. destruct (PyStr.is_empty p); [done|].
  destruct (FS.resolve_from f _ _ _) as [[k0 b0]|e] eqn:R; [|done].
  by rewrite (resolve_from_grows f f' _ _ _ _ G R).
Qed.

Lemma stat_grows f f' p k n :
  grows f f' -> FS.stat cwd f p = Ok (k, n) ->
  exists n', FS.stat cwd f' p = Ok (k, n') /\
             match n with StDir => n' = StDir
                     | StFile _ => exists d', n' = StFile d' end.
Proof.
  intros G St. pose proof (stat_resolve _ _ _ _ St) as R.
  pose proof (stat_lookup _ _ _ _ St) as E.
  apply (resolve_grows f f' p k G) in R.
  destruct n as [d|]; cbn [node_of] in E.
  - destruct (grows_file f f' G k d E) as [d' E'].
    exists (StFile d'). split; [|eauto]. by apply resolve_stat.
  - exists StDir. split; [|done]. apply resolve_stat; [done|].
    by apply (grows_dir f f' G).
Qed.

Lemma exists_grows f f' p :
  grows f f' -> FS.exists_ cwd f p = true -> FS.exists_ cwd f' p = true.
Proof.
  intros G (k & n & St)%exists_stat.
  destruct (stat_grows f f' p k n G St) as (n' & St' & _).
  apply exists_stat. eauto.
Qed.

Lemma isdir_grows f f' p :
  grows f f' -> FS.isdir cwd f p = true -> FS.isdir cwd f' p = true.
Proof.
  intros G [k St]%isdir_stat.
  destruct (stat_grows f f' p k _ G St) as (n' & St' & ->).
  apply isdir_stat. eauto.
Qed.





(** *** How deep a resolution can reach *)

(** The targets of the links have at most [M] names. *)
Definition links_within (M : nat) (f : filetree) : Prop :=
  forall k t, f !! k = Some (Link t) -> (length t <= M)%nat.

Lemma follow_length M f b k k' b' :
  links_within M f -> FS.follow f b k = Ok (k', b') ->
  (length k' <= Nat.max (length k) M)%nat.
Proof.
  intros Lw Hf. destruct (follow_end f b k k' b' Hf) as (_ & _ & [->|[k0 E]]).
  - lia.
  - apply Lw in E. lia.
Qed.





End Resolution.

(** ** Creating directories and files *)

Section TreeUpdates.
Context `{Platform}.


(** A tree that only gained directories. *)
Definition adds_dirs (f f' : filetree) : Prop :=
  f ⊆ f' /\ forall k, f !! k = None -> is_Some (f' !! k) -> f' !! k = Some Dir.

Lemma adds_dirs_refl f : adds_dirs f f.
Proof. split; [done|]. intros k E [n E']. congruence. Qed.

Lemma adds_dirs_trans f1 f2 f3 :
  adds_dirs f1 f2 -> adds_dirs f2 f3 -> adds_dirs f1 f3.
Proof.
  intros [S1 N1] [S2 N2]. split; [by etrans|].
  intros k E Hs. destruct (f2 !! k) as [n|] eqn:E2.
  - assert (f2 !! k = Some Dir) as Ed by (apply N1; eauto).
    by apply (lookup_weaken _ _ _ _ Ed S2).
  - by apply N2.
Qed.

Lemma adds_dirs_insert f k : f !! k = None -> adds_dirs f (<[k := Dir]> f).
Proof.
  intros E. split; [by apply insert_subseteq|].
  intros k' E' Hs. destruct (decide (k' = k)) as [->|Hne].
  - apply lookup_insert_eq.
  - rewrite lookup_insert_ne in Hs by done. rewrite E' in Hs.
    by destruct Hs.
Qed.

Lemma adds_dirs_grows f f' : adds_dirs f f' -> grows f f'.
Proof.
  intros [S N]. split.
  - intros k E. by apply (lookup_weaken _ _ _ _ E S).
  - intros k d E. exists d. by apply (lookup_weaken _ _ _ _ E S).
  - intros k t. split.
    + intros E. by apply (lookup_weaken _ _ _ _ E S).
    + intros E'. destruct (f !! k) as [n|] eqn:E.
      * by rewrite (lookup_weaken _ _ _ _ E S) in E'.
      * rewrite N in E'; [done|done|eauto].
Qed.



(** *** [os.makedirs] *)

(** [makedirs_from] only adds directories, at places that were free and
    within reach of its components. *)
Lemma makedirs_from_grow M f b cur cs r f' :
  links_within M f ->
  FS.makedirs_from f b cur cs = (r, f') ->
  adds_dirs f f' /\
  (forall k, f !! k = None -> is_Some (f' !! k) ->
     (length k <= Nat.max (length cur) M + length cs)%nat).
Proof.
  revert f b cur. induction cs as [|c cs IH]; intros f b cur Lw.
  { cbn [FS.makedirs_from]. intros Hm.
    assert (f' = f) as ->
      by (by destruct (f !! cur) as [[d| |t]|]; injection Hm).
    split; [apply adds_dirs_refl|]. intros k E [n E']. congruence. }
  cbn [FS.makedirs_from]. intros Hm.
  assert (forall f0 : filetree, f' = f0 -> f0 = f ->
            adds_dirs f f' /\
            (forall k, f !! k = None -> is_Some (f' !! k) ->
               (length k <= Nat.max (length cur) M + length (c :: cs))%nat))
    as Same.
  { intros f0 -> ->. split; [apply adds_dirs_refl|].
    intros k E [n E']. congruence. }
  destruct (f !! cur) as [[d| |t]|] eqn:E;
    try (injection Hm as _ <-; by apply (Same f)).
  pose proof (step_length cur c) as Ls.
  destruct (f !! FS.step cur c) as [[d| |t]|] eqn:Ek.
  - destruct (IH _ _ _ Lw Hm) as (A & New). split; [done|].
    intros k E0 Hs. specialize (New k E0 Hs). cbn [length]. lia.
  - destruct (IH _ _ _ Lw Hm) as (A & New). split; [done|].
    intros k E0 Hs. specialize (New k E0 Hs). cbn [length]. lia.
  - destruct (FS.follow f b (FS.step cur c)) as [[k1 b1]|e] eqn:Hf;
      [|injection Hm as _ <-; by apply (Same f)].
    destruct (f !! k1) as [n1|] eqn:E1;
      [|injection Hm as _ <-; by apply (Same f)].
    destruct (IH _ _ _ Lw Hm) as (A & New). split; [done|].
    intros k E0 Hs. specialize (New k E0 Hs). cbn [length].
    pose proof (follow_length M f b _ k1 b1 Lw Hf). lia.
  - assert (links_within M (<[FS.step cur c := Dir]> f)) as Lw'.
    { intros k t. rewrite lookup_insert. case_decide; [done|]. apply Lw. }
    destruct (IH _ _ _ Lw' Hm) as (A & New). split.
    + eapply adds_dirs_trans; [|exact A]. by apply adds_dirs_insert.
    + intros k E0 Hs. destruct (decide (k = FS.step cur c)) as [->|Hne].
      * cbn [length]. lia.
      * specialize (New k). rewrite lookup_insert_ne in New by done.
        specialize (New E0 Hs). cbn [length]. lia.
Qed.



Lemma makedirs_adds_dirs f name r f' :
  FS.makedirs cwd f name = (r, f') -> adds_dirs f f'.
Proof.
  unfold FS.makedirs. destruct (PyStr.is_empty name).
  { intros [= _ <-]. apply adds_dirs_refl. }
  assert (exists M, links_within M f) as [M Lw].
  { clear. induction f as [|k n f E _ IH] using map_first_key_ind.
    - exists O. intros k t. by rewrite lookup_empty.
    - destruct IH as [M IH].
      exists (Nat.max M (match n with Link t => length t | _ => O end)).
      intros k' t. rewrite lookup_insert. case_decide.
      + intros [= ->]. lia.
      + intros E'. apply IH in E'. lia. }
  intros Hm. by apply (makedirs_from_grow M) in Hm as [? _].
Qed.



(** *** [shutil.copy2] *)

(** The path [shutil.copy2] writes to. *)
Definition copy_target (f : filetree) (src dst : string) : string :=
  if FS.isdir cwd f dst
  then os_path.join dst [os_path.basename src] else dst.

(** A copy that returns wrote the data of the source, a regular file the
    process may read, at one place: a place that held a regular file other
    than the source, or a free place in a directory. *)
Lemma copy2_ok f src dst f2 :
  FS.copy2 cwd f src dst = (Ok tt, f2) ->
  exists ksrc d kdst,
    FS.stat cwd f src = Ok (ksrc, StFile d) /\ readable d = true /\
    FS.resolve cwd f (copy_target f src dst) = Ok kdst /\
    ksrc <> kdst /\
    ((exists d0, f !! kdst = Some (File d0)) \/
     (f !! kdst = None /\ f !! removelast kdst = Some Dir)) /\
    f2 = <[kdst := File d]> f.
Proof.
  unfold FS.copy2. fold (copy_target f src dst).
  destruct (FS.stat cwd f src) as [[ksrc [d|]]|e] eqn:Ss.
  2:{ by destruct (FS.stat cwd f (copy_target f src dst)) as [[? ?]|];
        [case_bool_decide|]. }
  2:{ by destruct (FS.stat cwd f (copy_target f src dst)) as [[? ?]|]. }
  destruct (FS.stat cwd f (copy_target f src dst)) as [[kd nd]|e] eqn:Sd.
  - case_bool_decide as Hk; [done|].
    destruct (readable d) eqn:Rd; [|done]. cbn [negb].
    rewrite (stat_resolve _ _ _ _ Sd).
    rewrite (stat_lookup _ _ _ _ Sd).
    destruct nd as [d0|]; [|done]. cbn [node_of].
    intros [= <-]. exists ksrc, d, kd. repeat split; try done.
    left. exists d0. by apply stat_lookup in Sd.
  - destruct (readable d) eqn:Rd; [|done]. cbn [negb].
    destruct (FS.resolve cwd f (copy_target f src dst)) as [kd|e0] eqn:R;
      [|done].
    destruct (f !! kd) as [[d0| |t]|] eqn:Ed; try done.
    { unfold FS.stat in Sd. by rewrite R, Ed in Sd. }
    destruct (f !! removelast kd) as [[d0| |t]|] eqn:Ep; try done.
    intros [= <-]. exists ksrc, d, kd. repeat split; try done.
    + intros <-. apply stat_lookup in Ss. congruence.
    + by right.
Qed.

Lemma copy2_raise f src dst e f2 :
  FS.copy2 cwd f src dst = (Raise e, f2) -> f2 = f.
Proof.
  unfold FS.copy2.
  destruct (match FS.stat cwd f src with
            | Ok (ksrc, _) =>
                match FS.stat cwd f _ with
                | Ok (kdst, _) => bool_decide (ksrc = kdst)
                | Raise _ => false
                end
            | Raise _ => false
            end); [by intros [= _ <-]|].
  destruct (FS.stat cwd f src) as [[ksrc [d|]]|e0]; try by intros [= _ <-].
  destruct (negb (readable d)); [by intros [= _ <-]|].
  destruct (FS.resolve cwd f _) as [kdst|e0]; [|by intros [= _ <-]].
  destruct (f !! kdst) as [[d0| |t]|]; try by intros [= _ <-].
  by destruct (f !! removelast kdst) as [[d0| |t]|]; intros [= _ <-].
Qed.

Lemma copy2_grows f src dst r f2 :
  FS.copy2 cwd f src dst = (r, f2) -> grows f f2.
Proof.
  destruct r as [[]|e]; intros C.
  - destruct (copy2_ok _ _ _ _ C)
      as (ksrc & d & kdst & St & Rd & R & Hne & Hk & ->).
    apply grows_insert_file.
    + destruct Hk as [[d0 E]|[E _]]; congruence.
    + destruct Hk as [[d0 E]|[E _]]; congruence.
  - apply copy2_raise in C as ->. apply grows_refl.
Qed.

(** After a copy that returns, the destination path exists. *)
Lemma copy2_ok_exists f src dst f2 :
  FS.copy2 cwd f src dst = (Ok tt, f2) -> FS.exists_ cwd f2 dst = true.
Proof.
  intros C. pose proof (copy2_grows _ _ _ _ _ C) as G.
  destruct (copy2_ok _ _ _ _ C)
    as (ksrc & d & kdst & St & Rd & R & Hne & Hk & ->).
  unfold copy_target in R.
  destruct (FS.isdir cwd f dst) eqn:Ed.
  - apply (exists_grows f); [done|]. apply exists_stat.
    apply isdir_stat in Ed as [kd Ed]. eauto.
  - apply exists_stat. exists kdst, (StFile d). apply resolve_stat.
    + by apply (resolve_grows f).
    + apply lookup_insert_eq.
Qed.




End TreeUpdates.

(** ** Invariants of [organize_file] *)

Section OrganizeInvariants.
Context `{Platform}.









(** *** How deep the destination lies *)












End OrganizeInvariants.

(** ** Walking a directory *)

Section Walk.
Context `{Platform}.




(** *** Joining a name to a resolved directory *)







Lemma valid_name_no_sep c : valid_name c = true -> no_char os_path.sep c = true.
Proof. unfold valid_name. by intros [_ ?]%andb_true_iff. Qed.





Lemma join_app top l1 l2 :
  os_path.join top (l1 ++ l2) = os_path.join (os_path.join top l1) l2.
Proof. unfold os_path.join. apply fold_left_app. Qed.

Lemma basename_join top names name :
  valid_name name = true ->
  os_path.basename (os_path.join top (names ++ [name])) = name.
Proof.
  intros V. rewrite join_app. cbn [os_path.join fold_left].
  apply basename_join2. by apply valid_name_no_sep.
Qed.

(** *** The calls of a scan *)














End Walk.

(** ** Checking a tree *)

Section Checks.
Context `{Platform}.

(** Well-formedness, as a test. *)
Definition wf_check (f : filetree) : bool :=
  bool_decide (f !! [] = Some Dir) && bool_decide (f !! cwd = Some Dir) &&
  forallb (fun kn : list string * node =>
             match rev kn.1 with
             | [] => true
             | c :: rparent =>
                 bool_decide (f !! rev rparent = Some Dir) && valid_name c
             end &&
             match kn.2 with
             | Link t => forallb valid_name t
             | _ => true
             end) (map_to_list f).

Lemma wf_check_sound f : wf_check f = true -> wf_tree f.
Proof.
  unfold wf_check.
  intros [[R C]%andb_true_iff A]%andb_true_iff.
  apply bool_decide_eq_true in R, C.
  rewrite forallb_forall in A.
  split; [done|done| |].
  - intros k c n E.
    assert (In (k ++ [c], n) (map_to_list f)) as Hin
      by (by apply list_elem_of_In, elem_of_map_to_list).
    apply A in Hin. cbn [fst snd] in Hin.
    rewrite rev_app_distr in Hin. cbn [rev app] in Hin.
    rewrite rev_involutive in Hin.
    apply andb_true_iff in Hin as [[A1 A2]%andb_true_iff _].
    by apply bool_decide_eq_true in A1.
  - intros k t E.
    assert (In (k, Link t) (map_to_list f)) as Hin
      by (by apply list_elem_of_In, elem_of_map_to_list).
    apply A in Hin. cbn [fst snd] in Hin.
    apply andb_true_iff in Hin as [_ Hin].
    apply Forall_forall. intros c Hc.
    rewrite forallb_forall in Hin. by apply Hin, list_elem_of_In.
Qed.

Definition is_link (n : node) : bool :=
  match n with Link _ => true | _ => false end.

Definition no_links_check (f : filetree) : bool :=
  forallb (fun kn : list string * node => negb (is_link kn.2))
          (map_to_list f).

Lemma no_links_check_sound f : no_links_check f = true -> no_links f.
Proof.
  unfold no_links_check. rewrite forallb_forall. intros A k t E.
  assert (In (k, Link t) (map_to_list f)) as Hin
    by (by apply list_elem_of_In, elem_of_map_to_list).
  apply A in Hin. discriminate Hin.
Qed.







End Checks.

(** * The claims *)

(** Sample trees for closed instances, on the reference platform. *)
Module Sample.
Import Reference.

Definition both_tags : string :=
  "O2022:01:05 08:30:00;D2020:02:02 02:02:02".

Definition tree0 : filetree :=
  tree [ (["in"], Dir);
         (["in"; "img1.jpg"], file both_tags 1686823200);
         (["in"; "clip.mp4"], file "C2021-12-31T23:59:00.000000Z" 5);
         (["in"; "notes.txt"], file "hi" 7);
         (["in"; "sub"], Dir);
         (["in"; "sub"; "raw.PNG"], file "!x" 1686823200);
         (["out"], Dir) ].

(** The same with a file already at the destination of [/in/img1.jpg]. *)
Definition tree1 : filetree :=
  <[["out"; "2022"; "2022-01-05"; "img1.jpg"] := file "old" 5]>
    (<[["out"; "2022"; "2022-01-05"] := Dir]>
       (<[["out"; "2022"] := Dir]> tree0)).

(** The same with a directory at that destination. *)
Definition tree2 : filetree :=
  <[["out"; "2022"; "2022-01-05"; "img1.jpg"] := Dir]> tree1.

(** A tree whose output root is a regular file. *)
Definition tree3 : filetree :=
  <[["out"] := file "x" 1]> tree0.

(** A dangling symbolic link at the destination of [/in/img1.jpg]: it
    points into the existing directory [/vault]. *)
Definition tree4 : filetree :=
  <[["out"; "2022"; "2022-01-05"; "img1.jpg"] := Link ["vault"; "img1.jpg"]]>
    (<[["vault"] := Dir]> tree1).

(** An image the process may not read, and one whose modification time
    is past the year 9999. *)
Definition tree5 : filetree :=
  <[["in"; "locked.jpg"] := File (mk_file (bytes both_tags) 1686823200 false)]>
    (<[["in"; "far.jpg"] := file "N" 253402300800]> tree0).

(** An image taken, as its tag has it, in the year 999. *)
Definition tree6 : filetree :=
  <[["in"; "old.jpg"] := file "O0999:01:01 00:00:00" 1686823200]> tree0.

(** A symbolic link in the scanned directory to the place where the copy
    of [/in/sub/a.jpg] goes. *)
Definition tree7 : filetree :=
  tree [ (["in"], Dir);
         (["in"; "l.png"], Link ["out"; "2022"; "2022-01-05"; "a.jpg"]);
         (["in"; "sub"], Dir);
         (["in"; "sub"; "a.jpg"], file both_tags 1686823200);
         (["out"], Dir) ].

Definition organizer : PhotoOrganizer := mk_organizer ["/in"] "/out" false.
Definition dry_organizer : PhotoOrganizer := mk_organizer ["/in"] "/out" true.

(** An organizer whose output path goes through a directory that does
    not exist yet. *)
Definition dotdot_organizer : PhotoOrganizer :=
  mk_organizer ["/in"] "/out/new/.." false.

Definition jan5 : datetime := mk_datetime 2022 1 5 8 30 0 0.
Definition jun15 : datetime := mk_datetime 2023 6 15 10 0 0 0.
Definition year999 : datetime := mk_datetime 999 1 1 0 0 0 0.

End Sample.

Section SkipFacts.
Context `{Platform}.

(** The entries above [DEBUG] of one call, for a path with a resolved
    date. *)
Lemma organize_entries_place self file_path w d w1 :
  get_file_date self file_path w = (Ok (Some d), w1) ->
  forall lv m,
    lv <> DEBUG ->
    (lv, m) ∈ new_entries w (organize_file self file_path w).2 <->
    supported file_path = true /\
    (lv, m) ∈ (place_outcome self file_path d (fs w)).2 ++
             match (place_outcome self file_path d (fs w)).1.1 with
             | Ok _ => []
             | Raise e => [(ERROR, MsgErrorOrganizing file_path e)]
             end.
Proof.
  intros D lv m Hl.
  pose proof (get_file_date_result self file_path w) as Hr.
  rewrite D in Hr. cbn [fst] in Hr.
  rewrite organize_entry_outcome by done.
  unfold organize_outcome. rewrite <- Hr.
  by destruct (place_outcome self file_path d (fs w)) as [[r f'] l].
Qed.

Lemma place_outcome_skip_iff self file_path d f :
  (INFO, MsgSkipExists (dest_path_of self d file_path))
    ∈ (place_outcome self file_path d f).2 ++
      match (place_outcome self file_path d f).1.1 with
      | Ok _ => []
      | Raise e => [(ERROR, MsgErrorOrganizing file_path e)]
      end
  <-> FS.exists_ cwd f (dest_path_of self d file_path) = true.
Proof.
  unfold place_outcome.
  destruct (FS.exists_ cwd f (dest_path_of self d file_path)) eqn:E.
  - cbn [fst snd]. rewrite app_nil_r. split; [done|].
    intros _. by apply list_elem_of_singleton.
  - split; [|done]. intros Hin. exfalso.
    destruct (dry_run self).
    { cbn [fst snd] in Hin. rewrite app_nil_r in Hin.
      by apply list_elem_of_singleton in Hin. }
    destruct (after_makedirs self d f) as [[[]|e] f1].
    + unfold created_dir_entries in Hin.
      destruct (FS.copy2 cwd f1 file_path (dest_path_of self d file_path))
        as [[[]|e] f2]; cbn [fst snd] in Hin;
        destruct (FS.exists_ cwd f (dest_dir_of self d));
        repeat (apply elem_of_app in Hin as [Hin|Hin]);
        try (by apply elem_of_nil in Hin);
        by apply list_elem_of_singleton in Hin.
    + cbn [fst snd] in Hin. by apply list_elem_of_singleton in Hin.
Qed.

Lemma skip_no_copy self file_path w d w1 :
  supported file_path = true ->
  get_file_date self file_path w = (Ok (Some d), w1) ->
  FS.exists_ cwd (fs w) (dest_path_of self d file_path) = true ->
  forall src dst,
    (INFO, MsgCopied src dst)
      ∉ new_entries w (organize_file self file_path w).2.
Proof.
  intros S D E src dst Hin.
  apply (organize_entries_place self file_path w d w1 D) in Hin as [_ Hin];
    [|done].
  unfold place_outcome in Hin. rewrite E in Hin. cbn [fst snd] in Hin.
  rewrite app_nil_r in Hin. by apply list_elem_of_singleton in Hin.
Qed.

End SkipFacts.

(** C1.  The clause "the engine never overwrites an existing destination
    file" fails on the code.  With the output path [/out/new/..], where
    [/out/new] does not exist, [os.path.exists] cannot resolve the
    destination of [/in/img1.jpg] and answers [False]; [os.makedirs] then
    creates [/out/new], after which the same path names the regular file
    that was at [/out/2022/2022-01-05/img1.jpg] all along, and
    [shutil.copy2] replaces its bytes. *)
Theorem clobber_through_dotdot :
  let w := mk_world Sample.tree1 [] in
  let dst := "/out/new/../2022/2022-01-05/img1.jpg" in
  let k := ["out"; "2022"; "2022-01-05"; "img1.jpg"] in
  let w' := (organize_file (H := Reference.platform)
               Sample.dotdot_organizer "/in/img1.jpg" w).2 in
  wf_tree (H := Reference.platform) Sample.tree1 /\
  Sample.tree1 !! k = Some (Reference.file "old" 5) /\
  (get_file_date (H := Reference.platform) Sample.dotdot_organizer
     "/in/img1.jpg" w).1 = Ok (Some Sample.jan5) /\
  dest_path_of (H := Reference.platform) Sample.dotdot_organizer
    Sample.jan5 "/in/img1.jpg" = dst /\
  FS.exists_ [] Sample.tree1 dst = false /\
  log w' = [(DEBUG, MsgCreatedDir "/out/new/../2022/2022-01-05");
            (INFO, MsgCopied "/in/img1.jpg" dst)] /\
  fs w' !! ["out"; "new"] = Some Dir /\
  FS.stat [] (fs w') dst
    = Ok (k, StFile (mk_file (Reference.bytes Sample.both_tags)
                       1686823200 true)) /\
  ~ (forall (P : Platform) self file_path w k d,
       wf_tree (fs w) ->
       fs w !! k = Some (File d) ->
       fs (organize_file self file_path w).2 !! k = Some (File d)).
Proof.
  assert (wf_tree (H := Reference.platform) Sample.tree1) as W
    by (apply wf_check_sound; vm_compute; reflexivity).
  cbv zeta. split; [exact W|].
  do 7 (split; [vm_compute; reflexivity|]).
  intros Hall.
  specialize (Hall Reference.platform Sample.dotdot_organizer "/in/img1.jpg"
                (mk_world Sample.tree1 [])
                ["out"; "2022"; "2022-01-05"; "img1.jpg"]
                (mk_file (Reference.bytes "old") 5 true) W).
  vm_compute in Hall. specialize (Hall eq_refl). discriminate Hall.
Qed.

Section ClaimsA.
Context `{Platform}.

(** C10, as the code has it.  The skip is decided by [os.path.exists] on
    the destination path, which follows symbolic links: for a supported
    path with a resolved date, the skip is logged exactly when
    [os.path.exists] holds there.  Then [organize_file] returns without
    raising, without touching the tree and without copying; a directory
    at that path counts as much as a regular file.  A dangling symbolic
    link at that path does not: nothing is skipped. *)
Theorem skip_iff_exists self file_path w d w1 :
  supported file_path = true ->
  get_file_date self file_path w = (Ok (Some d), w1) ->
  ((INFO, MsgSkipExists (dest_path_of self d file_path))
     ∈ new_entries w (organize_file self file_path w).2
   <-> FS.exists_ cwd (fs w) (dest_path_of self d file_path) = true) /\
  (FS.exists_ cwd (fs w) (dest_path_of self d file_path) = true ->
   organize_file self file_path w =
     (Ok tt, mk_world (fs w)
               (log w1 ++ [(INFO, MsgSkipExists
                                    (dest_path_of self d file_path))])) /\
   forall src dst,
     (INFO, MsgCopied src dst)
       ∉ new_entries w (organize_file self file_path w).2) /\
  (forall k s,
     FS.stat cwd (fs w) (dest_path_of self d file_path) = Ok (k, s) ->
     FS.exists_ cwd (fs w) (dest_path_of self d file_path) = true) /\
  (forall k t,
     FS.lstat cwd (fs w) (dest_path_of self d file_path) = Ok (k, Link t) ->
     FS.exists_ cwd (fs w) (dest_path_of self d file_path) = false ->
     (INFO, MsgSkipExists (dest_path_of self d file_path))
       ∉ new_entries w (organize_file self file_path w).2).
Proof.
  intros S D.
  assert ((INFO, MsgSkipExists (dest_path_of self d file_path))
            ∈ new_entries w (organize_file self file_path w).2
          <-> FS.exists_ cwd (fs w) (dest_path_of self d file_path) = true)
    as Hiff.
  { rewrite (organize_entries_place self file_path w d w1 D) by done.
    rewrite place_outcome_skip_iff. split; [by intros [_ ?]|done]. }
  split; [exact Hiff|]. split; [|split].
  - intros E. split; [by apply organize_skip_exists|].
    by apply (skip_no_copy self file_path w d w1).
  - intros k s St. apply exists_stat. eauto.
  - intros k t _ E Hin. apply Hiff in Hin. congruence.
Qed.

(** C6.  With dry run enabled, no sequence of [organize_file] calls and no
    directory scan changes the tree: no directory is created and no file is
    copied.  A supported file whose date resolves and whose destination is
    free only gets the "would copy" entry logged. *)
Theorem dry_run_purity self :
  dry_run self = true ->
  (forall file_paths w,
     fs (for_each (fun file_path =>
                     organize_file self file_path ;; ret [file_path])
                  file_paths w).2 = fs w) /\
  (forall fuel directory w,
     fs (process_directory fuel self directory w).2 = fs w) /\
  (forall file_path w d w1,
     supported file_path = true ->
     get_file_date self file_path w = (Ok (Some d), w1) ->
     FS.exists_ cwd (fs w) (dest_path_of self d file_path) = false ->
     organize_file self file_path w =
       (Ok tt, mk_world (fs w)
                 (log w1 ++ [(INFO, MsgDryRun file_path
                                      (dest_path_of self d file_path))]))).
Proof.
  intros D. split; [|split].
  - intros file_paths w.
    apply (keeps_for_each (fun w' => fs w' = fs w)); [|done].
    intros file_path. apply keeps_bind; [|intros _; apply keeps_ret].
    by apply organize_dry_run_keeps.
  - intros fuel directory w.
    apply (keeps_process_directory (fun f => f = fs w)); [|done].
    intros file_path. by apply organize_dry_run_keeps.
  - intros file_path w d w1 S Dt E.
    rewrite organize_file_eq, S. cbn [negb].
    unfold try_except, organize_body, bind. rewrite Dt.
    apply get_file_date_fs in Dt as (_ & Hfs & _).
    rewrite place_dry_run by (by rewrite ?Hfs). by rewrite Hfs.
Qed.

End ClaimsA.

(** C10 as stated fails: with a dangling symbolic link at the destination
    of [/in/img1.jpg] there is an entry at that path, yet nothing is
    skipped; the copy is written through the link, to [/vault/img1.jpg]. *)
Lemma dangling_link_not_skipped :
  ~ (forall (P : Platform) self file_path w d w1 k n,
       supported file_path = true ->
       get_file_date self file_path w = (Ok (Some d), w1) ->
       FS.lstat cwd (fs w) (dest_path_of self d file_path) = Ok (k, n) ->
       (INFO, MsgSkipExists (dest_path_of self d file_path))
         ∈ new_entries w (organize_file self file_path w).2).
Proof.
  intros Hall.
  specialize (Hall Reference.platform Sample.organizer "/in/img1.jpg"
                (mk_world Sample.tree4 []) Sample.jan5
                (mk_world Sample.tree4 [])
                ["out"; "2022"; "2022-01-05"; "img1.jpg"]
                (Link ["vault"; "img1.jpg"])).
  vm_compute in Hall. specialize (Hall eq_refl eq_refl eq_refl).
  apply list_elem_of_In in Hall. destruct Hall as [Hall|[]].
  discriminate Hall.
Qed.

Lemma skip_iff_exists_witness :
  organize_file (H := Reference.platform) Sample.organizer "/in/img1.jpg"
    (mk_world Sample.tree2 []) =
    (Ok tt, mk_world Sample.tree2
              [(INFO, MsgSkipExists "/out/2022/2022-01-05/img1.jpg")]) /\
  (INFO, MsgSkipExists "/out/2022/2022-01-05/img1.jpg")
    ∉ new_entries (mk_world Sample.tree4 [])
        (organize_file (H := Reference.platform) Sample.organizer
           "/in/img1.jpg" (mk_world Sample.tree4 [])).2.
Proof.
  split.
  - destruct (skip_iff_exists (H := Reference.platform) Sample.organizer
                "/in/img1.jpg" (mk_world Sample.tree2 []) Sample.jan5
                (mk_world Sample.tree2 [])) as (_ & R & _).
    + vm_compute. reflexivity.
    + vm_compute. reflexivity.
    + destruct R as [R _]; [vm_compute; reflexivity|exact R].
  - destruct (skip_iff_exists (H := Reference.platform) Sample.organizer
                "/in/img1.jpg" (mk_world Sample.tree4 []) Sample.jan5
                (mk_world Sample.tree4 [])) as (_ & _ & _ & R).
    + vm_compute. reflexivity.
    + vm_compute. reflexivity.
    + apply (R ["out"; "2022"; "2022-01-05"; "img1.jpg"]
               ["vault"; "img1.jpg"]).
      * vm_compute. reflexivity.
      * vm_compute. reflexivity.
Defined.

Lemma dry_run_purity_witness :
  fs (process_directory (H := Reference.platform) 10 Sample.dry_organizer
        "/in" (mk_world Sample.tree0 [])).2 = Sample.tree0 /\
  organize_file (H := Reference.platform) Sample.dry_organizer
    "/in/img1.jpg" (mk_world Sample.tree0 []) =
    (Ok tt, mk_world Sample.tree0
              [(INFO, MsgDryRun "/in/img1.jpg"
                        "/out/2022/2022-01-05/img1.jpg")]).
Proof.
  destruct (dry_run_purity (H := Reference.platform) Sample.dry_organizer)
    as (_ & P & L).
  - reflexivity.
  - split; [apply (P 10%nat "/in" (mk_world Sample.tree0 []))|].
    apply (L "/in/img1.jpg" (mk_world Sample.tree0 []) Sample.jan5
             (mk_world Sample.tree0 [])).
    + vm_compute. reflexivity.
    + vm_compute. reflexivity.
    + vm_compute. reflexivity.
Defined.

Section ClaimsB.
Context `{Platform}.

Lemma in_list_In x l : PyStr.in_list x l = true <-> In x l.
Proof.
  unfold PyStr.in_list. rewrite existsb_exists. split.
  - intros (y & Hy & E). apply String.eqb_eq in E. by subst.
  - intros Hx. exists x. split; [done|]. apply String.eqb_refl.
Qed.

Lemma organize_unsupported_iff self file_path w :
  (DEBUG, MsgSkipUnsupported file_path)
    ∈ new_entries w (organize_file self file_path w).2
  <-> supported file_path = false.
Proof.
  destruct (organize_new_entries self file_path w) as (dbg & D & ->).
  destruct (supported file_path) eqn:S.
  - split; [|done]. intros Hin. exfalso.
    apply elem_of_app in Hin as [Hin|Hin].
    + by destruct (debug_only_elem dbg _ _ D Hin) as [_ ?].
    + unfold organize_outcome in Hin.
      destruct (date_of_stat file_path (FS.stat cwd (fs w) file_path))
        as [[d|]|e]; try (by apply list_elem_of_singleton in Hin).
      destruct (place_outcome self file_path d (fs w)) as [[r f'] l] eqn:P.
      cbn [snd] in Hin. apply elem_of_app in Hin as [Hin|Hin].
      * pose proof (place_outcome_entry self file_path d (fs w) DEBUG
                      (MsgSkipUnsupported file_path)) as Hc.
        rewrite P in Hc. cbn [snd] in Hc.
        by destruct (Hc Hin) as [(?&_)|[(?&_)|[(?&_)|(?&_)]]].
      * destruct r; [by apply elem_of_nil in Hin|].
        by apply list_elem_of_singleton in Hin.
  - split; [done|]. intros _. by apply list_elem_of_singleton.
Qed.

(** C7.  Classification answers on every path string.  A path without
    extension is unsupported; the answer depends on the extension through
    its lower-casing only, which on ASCII extensions is the lower-casing
    of the letters.  A path is unsupported exactly when its lower-cased
    extension is in neither list, and exactly then [organize_file] takes
    its first [return]: whatever the tree and the platform, it returns
    without raising, the tree is unchanged, and the entry of the skip is
    the only one logged (none of date resolution, none of an error). *)
Theorem unsupported_noop :
  (forall file_path,
     classify file_path = Image \/ classify file_path = Video \/
     classify file_path = Unsupported) /\
  (forall file_path,
     (os_path.splitext file_path).2 = "" ->
     classify file_path = Unsupported) /\
  (forall p q,
     str_lower (os_path.splitext p).2 = str_lower (os_path.splitext q).2 ->
     classify p = classify q) /\
  (forall p q,
     PyStr.isascii (os_path.splitext p).2 = true ->
     PyStr.isascii (os_path.splitext q).2 = true ->
     PyStr.ascii_lower (os_path.splitext p).2
       = PyStr.ascii_lower (os_path.splitext q).2 ->
     classify p = classify q) /\
  (forall file_path,
     classify file_path = Unsupported <->
     ~ In (str_lower (os_path.splitext file_path).2)
          (supported_images ++ supported_videos)) /\
  (forall self file_path w,
     (classify file_path = Unsupported <->
      (DEBUG, MsgSkipUnsupported file_path)
        ∈ new_entries w (organize_file self file_path w).2) /\
     (classify file_path = Unsupported ->
      organize_file self file_path w =
        (Ok tt, mk_world (fs w)
                  (log w ++ [(DEBUG, MsgSkipUnsupported file_path)])))).
Proof.
  split; [|split; [|split; [|split; [|split]]]].
  - intros file_path. destruct (classify file_path); auto.
  - apply classify_no_ext.
  - apply classify_ext.
  - apply classify_ascii.
  - intros file_path. rewrite <- supported_false_iff.
    unfold supported, file_ext_of. rewrite <- in_list_In.
    by destruct (PyStr.in_list _ _).
  - intros self file_path w. split.
    + by rewrite organize_unsupported_iff, supported_false_iff.
    + intros C. apply organize_unsupported. by apply supported_false_iff.
Qed.

(** C3.  For a supported regular file from which no embedded date can be
    extracted, the resolved date is that of its modification time, and the
    placement step runs with the destination built from that date:
    [<output>/<year>/<year-month-day>/<name>]. *)
Theorem mtime_fallback self file_path w k x d :
  supported file_path = true ->
  FS.stat cwd (fs w) file_path = Ok (k, StFile x) ->
  embedded_date file_path x = None ->
  fromtimestamp (mtime x) = Ok d ->
  exists dbg,
    debug_only dbg /\
    get_file_date self file_path w =
      (Ok (Some d), mk_world (fs w) (log w ++ dbg)) /\
    organize_file self file_path w =
      try_except (place self file_path d)
                 (organize_handler file_path)
                 (mk_world (fs w) (log w ++ dbg)) /\
    dest_path_of self d file_path =
      output_path self +:+ joint (output_path self) +:+
      PyStr.str_of_Z (year d) +:+ "/" +:+
      strftime d "%Y-%m-%d" +:+ "/" +:+
      os_path.basename file_path.
Proof.
  intros S St E T.
  destruct (get_file_date_run self file_path w) as [dbg [R D]].
  rewrite St in R. cbn [date_of_stat] in R. rewrite E in R.
  unfold mtime_date in R. rewrite T in R.
  exists dbg. split; [done|]. split; [done|]. split.
  - rewrite organize_file_eq, S. cbn [negb].
    unfold try_except, organize_body, bind. by rewrite R.
  - rewrite dest_path_of_eq, dest_dir_of_eq. by rewrite !append_assoc.
Qed.

(** C4.  For an image file whose EXIF data holds both tags, the date is
    read from DateTimeOriginal alone: the resolved date is what its value
    parses to (the fallback to the modification time when it does not
    parse), whatever DateTime holds.  DateTime is read when
    DateTimeOriginal is absent. *)
Theorem exif_tag_priority self file_path w k x exif_data :
  classify file_path = Image ->
  FS.stat cwd (fs w) file_path = Ok (k, StFile x) ->
  getexif_of x = Ok (Some exif_data) ->
  (forall original other,
     exif_data !! 36867 = Some original ->
     exif_data !! 306 = Some other ->
     embedded_image_date x = parse_tag original exif_format /\
     (get_file_date self file_path w).1 =
       match parse_tag original exif_format with
       | Some d => Ok (Some d)
       | None => mtime_date (mtime x)
       end) /\
  (forall other,
     exif_data !! 36867 = None ->
     exif_data !! 306 = Some other ->
     (get_file_date self file_path w).1 =
       match parse_tag other exif_format with
       | Some d => Ok (Some d)
       | None => mtime_date (mtime x)
       end).
Proof.
  intros C St G.
  pose proof (get_file_date_result self file_path w) as R.
  rewrite St in R. cbn [date_of_stat] in R.
  unfold embedded_date in R. rewrite C in R.
  unfold embedded_image_date in *. rewrite G in *.
  split.
  - intros original other E1 E2. rewrite E1 in *. done.
  - intros other E1 E2. by rewrite E1, E2 in R.
Qed.

End ClaimsB.

Lemma unsupported_noop_witness :
  classify (H := Reference.platform) "/in/README" = Unsupported /\
  classify (H := Reference.platform) "/in/IMG_1.JPG"
    = classify (H := Reference.platform) "/in/img_1.jpg" /\
  organize_file (H := Reference.platform) Sample.organizer "/in/notes.txt"
    (mk_world Sample.tree0 []) =
    (Ok tt, mk_world Sample.tree0
              [(DEBUG, MsgSkipUnsupported "/in/notes.txt")]).
Proof.
  destruct (unsupported_noop (H := Reference.platform))
    as (_ & A & _ & B & _ & C).
  split; [|split].
  - apply A. reflexivity.
  - apply B; reflexivity.
  - apply (C Sample.organizer "/in/notes.txt" (mk_world Sample.tree0 [])).
    reflexivity.
Defined.

Lemma mtime_fallback_witness :
  (get_file_date (H := Reference.platform) Sample.organizer
     "/in/sub/raw.PNG" (mk_world Sample.tree0 [])).1 = Ok (Some Sample.jun15)
  /\ dest_path_of (H := Reference.platform) Sample.organizer Sample.jun15
       "/in/sub/raw.PNG"
     = "/out/2023/2023-06-15/raw.PNG"
  /\ fs (organize_file (H := Reference.platform) Sample.organizer
           "/in/sub/raw.PNG" (mk_world Sample.tree0 [])).2
       !! ["out"; "2023"; "2023-06-15"; "raw.PNG"]
     = Some (Reference.file "!x" 1686823200).
Proof.
  destruct (mtime_fallback (H := Reference.platform) Sample.organizer
              "/in/sub/raw.PNG" (mk_world Sample.tree0 [])
              ["in"; "sub"; "raw.PNG"]
              (mk_file (Reference.bytes "!x") 1686823200 true) Sample.jun15)
    as (dbg & _ & G & O & P).
  - vm_compute. reflexivity.
  - vm_compute. reflexivity.
  - vm_compute. reflexivity.
  - vm_compute. reflexivity.
  - split; [by rewrite G|]. split; [vm_compute; reflexivity|].
    vm_compute. reflexivity.
Defined.

Lemma exif_tag_priority_witness :
  (get_file_date (H := Reference.platform) Sample.organizer "/in/img1.jpg"
     (mk_world Sample.tree0 [])).1 = Ok (Some Sample.jan5).
Proof.
  destruct (exif_tag_priority (H := Reference.platform) Sample.organizer
              "/in/img1.jpg" (mk_world Sample.tree0 [])
              ["in"; "img1.jpg"]
              (mk_file (Reference.bytes Sample.both_tags) 1686823200 true)
              (<[306 := PyStr "2020:02:02 02:02:02"]>
                 (<[36867 := PyStr "2022:01:05 08:30:00"]> ∅)))
    as (B & _).
  - vm_compute. reflexivity.
  - vm_compute. reflexivity.
  - vm_compute. reflexivity.
  - destruct (B (PyStr "2022:01:05 08:30:00") (PyStr "2020:02:02 02:02:02"))
      as [_ R].
    + vm_compute. reflexivity.
    + vm_compute. reflexivity.
    + exact R.
Defined.

(** C5.  The layout [<output_path>/<year>/<YYYY-MM-DD>/<name>] that the
    comment of line 98 announces is not what the code builds for a year
    below 1000: [str] does not pad the year, and on a platform whose
    [strftime] does not pad [%Y] either (glibc) the date directory has
    three digits too.  An image whose DateTimeOriginal is
    [0999:01:01 00:00:00] is copied to [/out/999/999-01-01/old.jpg]. *)
Theorem unpadded_year_directory :
  let w := mk_world Sample.tree6 [] in
  let w' := (organize_file (H := Reference.platform) Sample.organizer
               "/in/old.jpg" w).2 in
  strftime_pads_year (Platform := Reference.platform) = false /\
  (get_file_date (H := Reference.platform) Sample.organizer
     "/in/old.jpg" w).1 = Ok (Some Sample.year999) /\
  strftime (H := Reference.platform) Sample.year999 "%Y-%m-%d" = "999-01-01" /\
  dest_path_of (H := Reference.platform) Sample.organizer Sample.year999
    "/in/old.jpg" = "/out/999/999-01-01/old.jpg" /\
  log w' = [(DEBUG, MsgCreatedDir "/out/999/999-01-01");
            (INFO, MsgCopied "/in/old.jpg" "/out/999/999-01-01/old.jpg")] /\
  fs w' !! ["out"; "999"; "999-01-01"; "old.jpg"]
    = Some (Reference.file "O0999:01:01 00:00:00" 1686823200) /\
  fs w' !! ["out"; "0999"] = None.
Proof. cbv zeta. repeat split; vm_compute; reflexivity. Qed.

Section ClaimC8.
Context `{Platform}.

Lemma place_outcome_raise self file_path d f e :
  (place_outcome self file_path d f).1.1 = Raise e <->
  FS.exists_ cwd f (dest_path_of self d file_path) = false /\
  dry_run self = false /\
  ((exists f1, after_makedirs self d f = (Raise e, f1)) \/
   (exists f1 f2,
      after_makedirs self d f = (Ok tt, f1) /\
      FS.copy2 cwd f1 file_path (dest_path_of self d file_path)
        = (Raise e, f2))).
Proof.
  unfold place_outcome.
  destruct (FS.exists_ cwd f (dest_path_of self d file_path)).
  { cbn. split; [done|]. by intros [? _]. }
  destruct (dry_run self).
  { cbn. split; [done|]. by intros (_ & ? & _). }
  destruct (after_makedirs self d f) as [[[]|e1] f1].
  - destruct (FS.copy2 cwd f1 file_path (dest_path_of self d file_path))
      as [[[]|e2] f2] eqn:C; cbn [fst snd].
    + split; [done|]. intros (_ & _ & [[x Hx]|(x & y & Hx & Hy)]).
      * discriminate Hx.
      * injection Hx as <-. rewrite C in Hy. discriminate Hy.
    + split.
      * intros [= ->]. repeat split. right. by exists f1, f2.
      * intros (_ & _ & [[x Hx]|(x & y & Hx & Hy)]).
        -- discriminate Hx.
        -- injection Hx as <-. rewrite C in Hy. by injection Hy as -> _.
  - cbn [fst snd]. split.
    + intros [= ->]. repeat split. left. by exists f1.
    + intros (_ & _ & [[x Hx]|(x & y & Hx & Hy)]).
      * by injection Hx as -> _.
      * discriminate Hx.
Qed.

(** The time stamp the fallback of lines 76-77 converts. *)
Definition stat_mtime (k : list string) (s : stat_result) : Z :=
  match s with StFile x => mtime x | StDir => dir_mtime k end.

(** No embedded date is read from the node. *)
Definition no_embedded_date (file_path : string) (s : stat_result) : Prop :=
  match s with
  | StFile x => embedded_date file_path x = None
  | StDir => True
  end.

Lemma date_of_stat_Ok file_path k s :
  (forall d, date_of_stat file_path (Ok (k, s)) = Ok (Some d) ->
     (exists x, s = StFile x /\ embedded_date file_path x = Some d) \/
     (no_embedded_date file_path s /\
      fromtimestamp (stat_mtime k s) = Ok d)) /\
  (forall e, date_of_stat file_path (Ok (k, s)) = Raise e <->
     no_embedded_date file_path s /\
     fromtimestamp (stat_mtime k s) = Raise e).
Proof.
  unfold date_of_stat, mtime_date, no_embedded_date, stat_mtime.
  destruct s as [x|].
  - destruct (embedded_date file_path x) as [d0|] eqn:E.
    + split.
      * intros d [= <-]. left. eauto.
      * intros e. split; [done|]. by intros [? _].
    + destruct (fromtimestamp (mtime x)) as [d0|e0]; split.
      * intros d [= <-]. by right.
      * intros e. split; [done|]. by intros [_ ?].
      * done.
      * intros e. split; [by intros [= ->]|]. by intros [_ [= ->]].
  - destruct (fromtimestamp (dir_mtime k)) as [d0|e0]; split.
    + intros d [= <-]. by right.
    + intros e. split; [done|]. by intros [_ ?].
    + done.
    + intros e. split; [by intros [= ->]|]. by intros [_ [= ->]].
Qed.

(** Date resolution raises exactly when the path cannot be stat'ed, or
    when no embedded date is read and the conversion of the modification
    time raises. *)
Lemma resolution_fails_iff self file_path w :
  resolution_fails self file_path w <->
  (exists e, FS.stat cwd (fs w) file_path = Raise e) \/
  (exists k s e,
     FS.stat cwd (fs w) file_path = Ok (k, s) /\
     no_embedded_date file_path s /\
     fromtimestamp (stat_mtime k s) = Raise e).
Proof.
  unfold resolution_fails. rewrite get_file_date_result.
  destruct (FS.stat cwd (fs w) file_path) as [[k s]|e0].
  - split.
    + intros [e He]. right. exists k, s, e. split; [done|].
      by apply (date_of_stat_Ok file_path k s).
    + intros [[e He]|(k' & s' & e & [= <- <-] & N & T)]; [done|].
      exists e. by apply (date_of_stat_Ok file_path k s).
  - split; [|by exists e0]. intros _. left. eauto.
Qed.

(** [organize_file] ends in its [except] clause exactly when the path is
    supported and date resolution, directory creation or the copy
    raises. *)
Lemma fails_outright_iff self file_path w :
  fails_outright self file_path w <->
  supported file_path = true /\
  (resolution_fails self file_path w \/
   (exists d e,
      (get_file_date self file_path w).1 = Ok (Some d) /\
      FS.exists_ cwd (fs w) (dest_path_of self d file_path) = false /\
      dry_run self = false /\
      ((exists f1, after_makedirs self d (fs w) = (Raise e, f1)) \/
       (exists f1 f2,
          after_makedirs self d (fs w) = (Ok tt, f1) /\
          FS.copy2 cwd f1 file_path (dest_path_of self d file_path)
            = (Raise e, f2))))).
Proof.
  unfold fails_outright, resolution_fails. rewrite get_file_date_result.
  split.
  - intros [e Hin]. apply organize_entry_outcome in Hin as [S Hin]; [|done].
    split; [done|]. unfold organize_outcome in Hin.
    destruct (date_of_stat file_path (FS.stat cwd (fs w) file_path))
      as [[d|]|e0] eqn:Dt.
    + right.
      destruct (place_outcome self file_path d (fs w)) as [[r f'] l] eqn:P.
      cbn [snd] in Hin. apply elem_of_app in Hin as [Hin|Hin].
      * pose proof (place_outcome_entry self file_path d (fs w) ERROR
                      (MsgErrorOrganizing file_path e)) as Hc.
        rewrite P in Hc. cbn [snd] in Hc.
        by destruct (Hc Hin) as [(?&?&_)|[(?&?&_)|[(?&?&_)|(?&?&_)]]].
      * destruct r as [[]|e1]; [by apply elem_of_nil in Hin|].
        apply list_elem_of_singleton in Hin. injection Hin as <-.
        exists d, e. split; [done|].
        apply place_outcome_raise. by rewrite P.
    + apply list_elem_of_singleton in Hin. done.
    + left. eauto.
  - intros [S Hc].
    assert (exists e, (ERROR, MsgErrorOrganizing file_path e)
                      ∈ (organize_outcome self file_path (fs w)).2)
      as [e He].
    { unfold organize_outcome. destruct Hc as [[e Dt]|(d & e & Dt & Hp)].
      - rewrite Dt. cbn. exists e. by apply list_elem_of_singleton.
      - rewrite Dt. apply place_outcome_raise in Hp.
        destruct (place_outcome self file_path d (fs w)) as [[r f'] l].
        cbn in Hp. subst r. cbn [snd]. exists e.
        apply elem_of_app. right. by apply list_elem_of_singleton. }
    exists e. apply organize_entry_outcome; done.
Qed.

(** A file the process may not read has no embedded date for it. *)
Lemma embedded_date_unreadable file_path x :
  readable x = false -> embedded_date file_path x = None.
Proof.
  intros R. unfold embedded_date, embedded_image_date, embedded_video_date,
    getexif_of, probe_of. rewrite R. by destruct (classify file_path).
Qed.

(** Copying a file the process may not read raises. *)
Lemma copy2_unreadable f src dst k x :
  FS.stat cwd f src = Ok (k, StFile x) -> readable x = false ->
  exists e, FS.copy2 cwd f src dst = (Raise e, f).
Proof.
  intros St R. unfold FS.copy2. rewrite St.
  destruct (match FS.stat cwd f _ with
            | Ok (kdst, _) => bool_decide (k = kdst)
            | Raise _ => false
            end); [eauto|].
  rewrite R. cbn [negb]. eauto.
Qed.

Lemma stat_adds_dirs f f' p k s :
  adds_dirs f f' -> FS.stat cwd f p = Ok (k, s) ->
  FS.stat cwd f' p = Ok (k, s).
Proof.
  intros A St. pose proof (stat_lookup _ _ _ _ St) as E.
  apply resolve_stat.
  - apply (resolve_grows f); [by apply adds_dirs_grows|].
    by apply stat_resolve in St.
  - destruct A as [S _]. by apply (lookup_weaken _ _ _ _ E S).
Qed.

Lemma after_makedirs_adds_dirs self d f r f1 :
  after_makedirs self d f = (r, f1) -> adds_dirs f f1.
Proof.
  unfold after_makedirs.
  destruct (FS.exists_ cwd f (dest_dir_of self d)).
  - intros [= _ <-]. apply adds_dirs_refl.
  - apply makedirs_adds_dirs.
Qed.

(** C8, as the code has it.  Date resolution never returns [None].  For a
    path that can be stat'ed it returns a date whenever the conversion of
    the modification time succeeds, and raises only when no embedded date
    is read and that conversion raises.  For a path that cannot be
    stat'ed, the failure of [os.path.getmtime] propagates out of
    [get_file_date], and [organize_file] catches and logs it.  A file that
    exists but may not be read does not make date resolution fail: its
    date is that of its modification time, and [organize_file] fails at
    the copy.  A failure of date resolution is one of three ways
    [organize_file] ends in its [except] clause: the others are a failure
    of directory creation and a failure of the copy. *)
Theorem resolution_and_failures self file_path w :
  (get_file_date self file_path w).1 <> Ok None /\
  (forall k s,
     FS.stat cwd (fs w) file_path = Ok (k, s) ->
     (forall d, fromtimestamp (stat_mtime k s) = Ok d ->
        exists d', (get_file_date self file_path w).1 = Ok (Some d')) /\
     (forall e, (get_file_date self file_path w).1 = Raise e ->
        no_embedded_date file_path s /\
        fromtimestamp (stat_mtime k s) = Raise e)) /\
  (forall e,
     FS.stat cwd (fs w) file_path = Raise e ->
     (get_file_date self file_path w).1 = Raise e /\
     (supported file_path = true -> fails_outright self file_path w)) /\
  (forall k x,
     FS.stat cwd (fs w) file_path = Ok (k, StFile x) ->
     readable x = false ->
     (get_file_date self file_path w).1 = mtime_date (mtime x) /\
     (forall d,
        fromtimestamp (mtime x) = Ok d ->
        supported file_path = true ->
        dry_run self = false ->
        FS.exists_ cwd (fs w) (dest_path_of self d file_path) = false ->
        ~ resolution_fails self file_path w /\
        fails_outright self file_path w)) /\
  (resolution_fails self file_path w <->
   (exists e, FS.stat cwd (fs w) file_path = Raise e) \/
   (exists k s e,
      FS.stat cwd (fs w) file_path = Ok (k, s) /\
      no_embedded_date file_path s /\
      fromtimestamp (stat_mtime k s) = Raise e)) /\
  (fails_outright self file_path w <->
   supported file_path = true /\
   (resolution_fails self file_path w \/
    (exists d e,
       (get_file_date self file_path w).1 = Ok (Some d) /\
       FS.exists_ cwd (fs w) (dest_path_of self d file_path) = false /\
       dry_run self = false /\
       ((FS.exists_ cwd (fs w) (dest_dir_of self d) = false /\
         exists f1,
           FS.makedirs cwd (fs w) (dest_dir_of self d) = (Raise e, f1)) \/
        (exists f1 f2,
           after_makedirs self d (fs w) = (Ok tt, f1) /\
           FS.copy2 cwd f1 file_path (dest_path_of self d file_path)
             = (Raise e, f2)))))).
Proof.
  split; [|split; [|split; [|split; [|split]]]].
  - rewrite get_file_date_result. apply date_of_stat_not_None.
  - intros k s St. rewrite get_file_date_result, St. split.
    + intros d T. unfold date_of_stat, mtime_date, stat_mtime in *.
      destruct s as [x|]; [|rewrite T; eauto].
      destruct (embedded_date file_path x); [eauto|]. rewrite T. eauto.
    + intros e. apply date_of_stat_Ok.
  - intros e St. split.
    + by rewrite get_file_date_result, St.
    + intros S. apply fails_outright_iff. split; [done|]. left.
      exists e. by rewrite get_file_date_result, St.
  - intros k x St R.
    assert ((get_file_date self file_path w).1 = mtime_date (mtime x)) as Dt.
    { rewrite get_file_date_result, St. cbn [date_of_stat].
      by rewrite embedded_date_unreadable. }
    split; [done|]. intros d T S Dr E.
    unfold mtime_date in Dt. rewrite T in Dt. split.
    { intros [e He]. congruence. }
    apply fails_outright_iff. split; [done|]. right.
    destruct (after_makedirs self d (fs w)) as [[[]|e1] f1] eqn:Mk.
    + pose proof (after_makedirs_adds_dirs _ _ _ _ _ Mk) as A.
      destruct (copy2_unreadable f1 file_path
                  (dest_path_of self d file_path) k x) as [e C];
        [by apply (stat_adds_dirs (fs w))|done|].
      exists d, e. repeat split; try done. right. eauto.
    + exists d, e1. repeat split; try done. left. eauto.
  - apply resolution_fails_iff.
  - rewrite fails_outright_iff.
    split; intros [S Hc]; (split; [done|]).
    + destruct Hc as [?|(d & e & Dt & E & D & Hc)]; [by left|].
      right. exists d, e. repeat split; try done.
      destruct Hc as [[f1 Mk]|Hc]; [|by right].
      left. unfold after_makedirs in Mk.
      destruct (FS.exists_ cwd (fs w) (dest_dir_of self d)); [done|].
      split; [done|]. by exists f1.
    + destruct Hc as [?|(d & e & Dt & E & D & Hc)]; [by left|].
      right. exists d, e. repeat split; try done.
      destruct Hc as [[Ed [f1 Mk]]|Hc]; [|by right].
      left. exists f1. unfold after_makedirs. by rewrite Ed.
Qed.

End ClaimC8.

(** C8 as stated fails, in each of its three parts.  A regular file that
    can be stat'ed and whose modification time is past the year 9999 makes
    date resolution raise.  A file that may not be read (permission
    denied) does not: its date resolves, to its modification time.  And
    with a regular file where the output root should be, the date of
    [/in/img1.jpg] resolves and [organize_file] still ends in its [except]
    clause, on [os.makedirs]. *)
Lemma failure_without_resolution_failure :
  ~ (forall (P : Platform) self file_path w k s,
       supported file_path = true ->
       FS.stat cwd (fs w) file_path = Ok (k, s) ->
       exists d, (get_file_date self file_path w).1 = Ok (Some d)) /\
  ~ (forall (P : Platform) self file_path w k x,
       FS.stat cwd (fs w) file_path = Ok (k, StFile x) ->
       readable x = false ->
       resolution_fails self file_path w) /\
  ~ (forall (P : Platform) self file_path w,
       fails_outright self file_path w ->
       resolution_fails self file_path w).
Proof.
  split; [|split]; intros Hall.
  - destruct (Hall Reference.platform Sample.organizer "/in/far.jpg"
                (mk_world Sample.tree5 []) ["in"; "far.jpg"]
                (StFile (mk_file (Reference.bytes "N") 253402300800 true)))
      as [d Hd].
    + vm_compute. reflexivity.
    + vm_compute. reflexivity.
    + vm_compute in Hd. discriminate Hd.
  - destruct (Hall Reference.platform Sample.organizer "/in/locked.jpg"
                (mk_world Sample.tree5 []) ["in"; "locked.jpg"]
                (mk_file (Reference.bytes Sample.both_tags) 1686823200 false))
      as [e He].
    + vm_compute. reflexivity.
    + reflexivity.
    + vm_compute in He. discriminate He.
  - destruct (Hall Reference.platform Sample.organizer "/in/img1.jpg"
                (mk_world Sample.tree3 [])) as [e He].
    + exists NotADirectoryError. vm_compute.
      apply list_elem_of_In. left. reflexivity.
    + vm_compute in He. discriminate He.
Qed.

Lemma resolution_and_failures_witness :
  (get_file_date (H := Reference.platform) Sample.organizer "/in/gone.jpg"
     (mk_world Sample.tree0 [])).1 = Raise FileNotFoundError /\
  fails_outright (H := Reference.platform) Sample.organizer "/in/gone.jpg"
    (mk_world Sample.tree0 []) /\
  (get_file_date (H := Reference.platform) Sample.organizer
     "/in/locked.jpg" (mk_world Sample.tree5 [])).1 = Ok (Some Sample.jun15) /\
  fails_outright (H := Reference.platform) Sample.organizer
    "/in/locked.jpg" (mk_world Sample.tree5 []).
Proof.
  destruct (resolution_and_failures (H := Reference.platform)
              Sample.organizer "/in/gone.jpg" (mk_world Sample.tree0 []))
    as (_ & _ & B & _).
  destruct (B FileNotFoundError) as [R F].
  - vm_compute. reflexivity.
  - split; [exact R|]. split.
    + apply F. vm_compute. reflexivity.
    + destruct (resolution_and_failures (H := Reference.platform)
                  Sample.organizer "/in/locked.jpg"
                  (mk_world Sample.tree5 [])) as (_ & _ & _ & U & _).
      destruct (U ["in"; "locked.jpg"]
                  (mk_file (Reference.bytes Sample.both_tags)
                     1686823200 false)) as [Dt Fl].
      * vm_compute. reflexivity.
      * reflexivity.
      * split; [rewrite Dt; vm_compute; reflexivity|].
        apply (Fl Sample.jun15); vm_compute; reflexivity.
Defined.

Section ClaimC9.
Context `{Platform}.




End ClaimC9.

